(** * quest: a fluent HTTP request builder (qrequest.go)

    Shallow embedding of the [Qrequest] builder of [qrequest.go] and the
    properties of its configuration calls, its memoised dispatch and its
    terminal accessors.

    The builder is a mutable Go struct whose methods may panic (nil
    dereference) and which talks to three collaborators: the HTTP client,
    the JSON codec and the URL library.  The embedding threads the builder
    and an observable world (requests put on the wire, handler invocations)
    through a small state-and-panic monad; the collaborators are the
    variables of the section. *)

From Stdlib Require Import ZArith String Ascii List DecimalString DecimalZ DecimalPos.
From stdpp Require Import gmap strings list fin_maps.

Local Open Scope Z_scope.
Local Open Scope string_scope.

(** ** Go values used by the builder *)

(** [[]byte]. *)
Abbreviation bytes := (list Byte.byte).

(** [string(b)] and [[]byte(s)]. *)
Definition string_of_bytes (b : bytes) : string := string_of_list_byte b.
Definition bytes_of_string (s : string) : bytes := list_byte_of_string s.

(** Go's [error] interface.  [errors_New] is [errors.New]; the errors made
    by the collaborators are kept apart by their origin. *)
Inductive error : Type :=
| errors_New (msg : string)
| foreign_error (origin msg : string).

#[global] Instance error_eq_dec : EqDecision error.
Proof. solve_decision. Defined.

(** Modelled from the spec: the [Method] enumeration of the imported
    package [methods], here [methods_Method] ("one of a fixed enumeration
    GET, POST, PUT, DELETE, HEAD, PATCH, ..."); every further member is an
    [OTHER]. *)
Inductive methods_Method : Type :=
| GET | HEAD | POST | PUT | PATCH | DELETE
| OTHER (name : string).

Definition Method_String (m : methods_Method) : string :=
  match m with
  | GET => "GET" | HEAD => "HEAD" | POST => "POST" | PUT => "PUT"
  | PATCH => "PATCH" | DELETE => "DELETE"
  | OTHER name => name
  end.

(** [http.Header]: canonical key to list of values.  The source only ever
    passes the key ["Content-Type"], which is its own canonical form. *)
Abbreviation http_Header := (gmap string (list string)).

(** [Header.Get]: the first value stored under the key, or [""]. *)
Definition Header_Get (h : http_Header) (key : string) : string :=
  match h !! key with
  | Some (v :: _) => v
  | _ => ""
  end.

(** [Header.Set]: replaces whatever is stored under the key. *)
Definition Header_Set (h : http_Header) (key value : string) : http_Header :=
  <[key := [value]]> h.

(** [url.Values] and the part of [url.URL] the builder touches. *)
Abbreviation Values := (gmap string (list string)).

Record URL : Type := mkURL {
  Scheme : string;
  Host : string;
  Path : string;
  RawQuery : string
}.

(** [http.Request] as built by [Do], and the part of [http.Response] that
    the builder reads: the status code and the bytes its body yields. *)
Record http_Request : Type := mkRequest {
  req_Method : string;
  req_URL : URL;
  req_Header : http_Header;
  req_Body : option bytes;
  req_ContentLength : Z
}.

Record http_Response : Type := mkResponse {
  StatusCode : Z;
  res_Header : http_Header;
  res_Body : bytes
}.

(** ** The builder *)

(** [Body] is an [io.ReadCloser]: [None] is the nil interface, [Some b] a
    reader that yields [b].  [Buffer], [req] and [res] are pointers, [None]
    being nil.  [err] is [None] for a nil error.  [Header] and [Uri] are
    allocated by the constructor and never nil here. *)
Record Qrequest : Type := mkQrequest {
  Method : methods_Method;
  Url : string;
  Uri : URL;
  req : option http_Request;
  res : option http_Response;
  client : bool;
  Header : http_Header;
  Body : option bytes;
  Length : Z;
  isBodyClosed : bool;
  Buffer : option bytes;
  err : option error
}.

Definition with_Uri (u : URL) (r : Qrequest) : Qrequest :=
  mkQrequest (Method r) (Url r) u (req r) (res r) (client r) (Header r)
             (Body r) (Length r) (isBodyClosed r) (Buffer r) (err r).
Definition with_req (q : option http_Request) (r : Qrequest) : Qrequest :=
  mkQrequest (Method r) (Url r) (Uri r) q (res r) (client r) (Header r)
             (Body r) (Length r) (isBodyClosed r) (Buffer r) (err r).
Definition with_res (s : option http_Response) (r : Qrequest) : Qrequest :=
  mkQrequest (Method r) (Url r) (Uri r) (req r) s (client r) (Header r)
             (Body r) (Length r) (isBodyClosed r) (Buffer r) (err r).
Definition with_client (c : bool) (r : Qrequest) : Qrequest :=
  mkQrequest (Method r) (Url r) (Uri r) (req r) (res r) c (Header r)
             (Body r) (Length r) (isBodyClosed r) (Buffer r) (err r).
Definition with_Header (h : http_Header) (r : Qrequest) : Qrequest :=
  mkQrequest (Method r) (Url r) (Uri r) (req r) (res r) (client r) h
             (Body r) (Length r) (isBodyClosed r) (Buffer r) (err r).
Definition with_Body (b : option bytes) (n : Z) (r : Qrequest) : Qrequest :=
  mkQrequest (Method r) (Url r) (Uri r) (req r) (res r) (client r) (Header r)
             b n (isBodyClosed r) (Buffer r) (err r).
Definition with_isBodyClosed (c : bool) (r : Qrequest) : Qrequest :=
  mkQrequest (Method r) (Url r) (Uri r) (req r) (res r) (client r) (Header r)
             (Body r) (Length r) c (Buffer r) (err r).
Definition with_Buffer (b : option bytes) (r : Qrequest) : Qrequest :=
  mkQrequest (Method r) (Url r) (Uri r) (req r) (res r) (client r) (Header r)
             (Body r) (Length r) (isBodyClosed r) b (err r).
Definition with_err (e : option error) (r : Qrequest) : Qrequest :=
  mkQrequest (Method r) (Url r) (Uri r) (req r) (res r) (client r) (Header r)
             (Body r) (Length r) (isBodyClosed r) (Buffer r) e.

(** ** Results and panics *)

(** A Go call either returns or panics; the builder survives a panic (the
    caller may recover), so the state is kept on both outcomes. *)
Inductive Outcome (A : Type) : Type :=
| Ret (a : A)
| Panic (msg : string).
Arguments Ret {A} a.
Arguments Panic {A} msg.

Definition nil_dereference : string :=
  "invalid memory address or nil pointer dereference".

(** ** Helpers *)

Definition packBodyByString (s : string) : option bytes * Z :=
  (Some (bytes_of_string s), Z.of_nat (String.length s)).

Definition packBodyByBytes (b : bytes) : option bytes * Z :=
  (Some b, Z.of_nat (List.length b)).

(** The three pointer shapes: [b.Len()] dereferences [b], so a nil pointer
    of that type panics; otherwise the reader is adopted as it is and the
    length is that of its unread part. *)
Definition packBodyByBytesBuffer (b : option bytes) : Outcome (option bytes * Z) :=
  match b with
  | Some unread => Ret (Some unread, Z.of_nat (List.length unread))
  | None => Panic nil_dereference
  end.

Definition packBodyByBytesReader (b : option bytes) : Outcome (option bytes * Z) :=
  match b with
  | Some unread => Ret (Some unread, Z.of_nat (List.length unread))
  | None => Panic nil_dereference
  end.

Definition packBodyByStringsReader (b : option string) : Outcome (option bytes * Z) :=
  match b with
  | Some unread => Ret (Some (bytes_of_string unread), Z.of_nat (String.length unread))
  | None => Panic nil_dereference
  end.

Definition encodesParametersInURL (m : methods_Method) : bool :=
  match m with
  | GET | HEAD | DELETE => true
  | _ => false
  end.

(** ** [strings.ToUpper] and [strconv.Itoa] *)

(** [c < utf8.RuneSelf]: the byte is an ASCII character. *)
Definition is_ascii_byte (c : ascii) : bool := (nat_of_ascii c <? 128)%nat.

Fixpoint isASCII (s : string) : bool :=
  match s with
  | EmptyString => true
  | String c s' => is_ascii_byte c && isASCII s'
  end.

(** ['a' <= c && c <= 'z'] gives [c - ('a' - 'A')]. *)
Definition upper_byte (c : ascii) : ascii :=
  let n := nat_of_ascii c in
  if ((97 <=? n) && (n <=? 122))%nat then ascii_of_nat (n - 32) else c.

Fixpoint upper_ascii (s : string) : string :=
  match s with
  | EmptyString => EmptyString
  | String c s' => String (upper_byte c) (upper_ascii s')
  end.

(** [strings.ToUpper]: a string of ASCII bytes is mapped byte by byte; any
    other string goes through the Unicode tables ([unicode.ToUpper] on
    every rune), which are a parameter here. *)
Definition ToUpper (unicode_ToUpper : string -> string) (s : string) : string :=
  if isASCII s then upper_ascii s else unicode_ToUpper s.

(** [strconv.Itoa]: the decimal digits, with a minus sign below zero. *)
Definition Itoa (n : Z) : string := NilZero.string_of_int (Z.to_int n).

(** ** The world outside the builder *)

Section Builder.

(** The values behind [interface{}] that are none of the shapes the type
    switches name, and the values inside a decoded JSON object. *)
Context {GoValue : Type}.

(** [JSONMaps], a [map[string]interface{}]; [None] is the nil map. *)
Definition JSONMaps : Type := option (gmap string GoValue).

(** The [data interface{}] argument of [Query] and [Parameters], by the
    cases of their type switches.  The three pointer types may be nil. *)
Inductive Data : Type :=
| url_Values (t : Values)
| go_string (t : string)
| go_bytes (t : bytes)
| bytes_Buffer (t : option bytes)
| bytes_Reader (t : option bytes)
| strings_Reader (t : option string)
| go_other (t : GoValue).

(** What a handler is called with.  The third argument differs by
    handler type: the buffer pointer, bytes, a string, or a mapping. *)
Inductive Payload : Type :=
| of_Buffer (body : option bytes)
| of_bytes (body : bytes)
| of_string (body : string)
| of_JSONMaps (data : JSONMaps).

Record HandlerCall : Type := mkHandlerCall {
  call_req : option http_Request;
  call_res : option http_Response;
  call_payload : Payload;
  call_err : option error
}.

(** The observable world: the requests handed to the HTTP client, oldest
    first, and the handler invocations, oldest first.  A handler is the
    caller's code; it is modelled by recording its arguments, and is
    taken not to call back into the builder. *)
Record World : Type := mkWorld {
  sent : list http_Request;
  calls : list HandlerCall
}.

(** Collaborators.  [json_Unmarshal] starts from the empty mapping and
    returns what the mapping holds afterwards with the error, if any.
    [client_Do] is [(&http.Client{}).Do]: its answer may depend on the
    requests sent before. *)
Variable json_Marshal : GoValue -> bytes + error.
Variable json_Unmarshal : bytes -> JSONMaps * option error.
Variable Values_Encode : Values -> string.
Variable client_Do : list http_Request -> http_Request -> http_Response + error.
Variable unicode_ToUpper : string -> string.

(** *** The monad of builder methods *)

Definition State : Type := Qrequest * World.

Definition M (A : Type) : Type := State -> Outcome A * State.

Definition ret {A} (a : A) : M A := fun s => (Ret a, s).

Definition bind {A B} (m : M A) (k : A -> M B) : M B :=
  fun s =>
    match m s with
    | (Ret a, s') => k a s'
    | (Panic msg, s') => (Panic msg, s')
    end.

Definition panic {A} (msg : string) : M A := fun s => (Panic msg, s).

Definition self : M Qrequest := fun s => (Ret (fst s), s).

Definition update (f : Qrequest -> Qrequest) : M unit :=
  fun s => (Ret tt, (f (fst s), snd s)).

Definition lift {A} (o : Outcome A) : M A := fun s => (o, s).

(** [r.client.Do(r.req)].  Only the request and the answer are modelled:
    what the client has read of the body's reader is not tracked, and
    [Body] keeps the bytes the reader held when it was stored. *)
Definition send (q : http_Request) : M (http_Response + error) :=
  fun s =>
    let w := snd s in
    (Ret (client_Do (sent w) q), (fst s, mkWorld (sent w ++ [q]) (calls w))).

(** [handler(...)]. *)
Definition invoke (c : HandlerCall) : M unit :=
  fun s =>
    let w := snd s in
    (Ret tt, (fst s, mkWorld (sent w) (calls w ++ [c]))).

Notation "x <- m ;; k" := (bind m (fun x => k))
  (at level 100, m at next level, right associativity).
Notation "m ;;; k" := (bind m (fun _ => k))
  (at level 100, right associativity).

(** [Bytes] of a [bytes.Buffer] pointer reads a field of its receiver; on a nil
    receiver it panics. *)
Definition Buffer_Bytes (body : option bytes) : M bytes :=
  match body with
  | Some b => ret b
  | None => panic nil_dereference
  end.

(** [String] of a [bytes.Buffer] pointer tests its receiver first: on a nil receiver
    it returns ["<nil>"]. *)
Definition Buffer_String (body : option bytes) : string :=
  match body with
  | Some b => string_of_bytes b
  | None => "<nil>"
  end.

(** *** Configuration *)

Definition Query (data : Data) : M unit :=
  let queryString :=
    match data with
    | url_Values t => Values_Encode t
    | go_string t => t
    | go_bytes t => string_of_bytes t
    | _ => ""
    end in
  update (fun r => with_Uri (mkURL (Scheme (Uri r)) (Host (Uri r)) (Path (Uri r)) queryString) r).

(** The type switch of [Parameters]: [Some] of the packed body, or
    [None] when the default case has returned early. *)
Definition pack (data : Data) : M (option (option bytes * Z)) :=
  match data with
  | url_Values t => ret (Some (packBodyByString (Values_Encode t)))
  | go_string t => ret (Some (packBodyByString t))
  | go_bytes t => ret (Some (packBodyByBytes t))
  | bytes_Buffer t => p <- lift (packBodyByBytesBuffer t) ;; ret (Some p)
  | bytes_Reader t => p <- lift (packBodyByBytesReader t) ;; ret (Some p)
  | strings_Reader t => p <- lift (packBodyByStringsReader t) ;; ret (Some p)
  | go_other t =>
      match json_Marshal t with
      | inr e => update (with_err (Some e)) ;;; ret None
      | inl b => ret (Some (packBodyByBytes b))
      end
  end.

Definition Parameters (data : Data) : M unit :=
  r <- self ;;
  if encodesParametersInURL (Method r) then ret tt
  else
    packed <- pack data ;;
    match packed with
    | None => ret tt
    | Some (body, length) =>
        match body with
        | Some _ => update (with_Body body length)
        | None => ret tt
        end
    end.

Definition Encoding (t : string) : M unit :=
  let t := ToUpper unicode_ToUpper t in
  let t := if decide (t = "JSON") then "application/json" else t in
  if decide (t <> "") then
    update (fun r => with_Header (Header_Set (Header r) "Content-Type" t) r)
  else ret tt.

Definition Authenticate (username password : string) : M unit := ret tt.

Definition Progress : M unit := ret tt.

(** *** Dispatch *)

(** The test on [Header.Get("Content-Type")] at the head of [Do]. *)
Definition with_default_content_type (h : http_Header) : http_Header :=
  if decide (Header_Get h "Content-Type" = "")
  then Header_Set h "Content-Type" "application/x-www-form-urlencoded"
  else h.

(** The [http.Request] that [Do] builds from the builder's fields. *)
Definition request_of (r : Qrequest) : http_Request :=
  let h := with_default_content_type (Header r) in
  match Body r with
  | Some b => mkRequest (Method_String (Method r)) (Uri r) h (Some b) (Length r)
  | None => mkRequest (Method_String (Method r)) (Uri r) h None 0
  end.

(** [r.req.Header] is the very map [r.Header], so the default content
    type written through the request shows in the builder too. *)
Definition Do : M (option bytes * option error) :=
  r <- self ;;
  let q := request_of r in
  update (fun r => with_client true (with_req (Some q) (with_Header (req_Header q) r))) ;;;
  answer <- send q ;;
  match answer with
  | inr e => ret (None, Some e)
  | inl resp =>
      update (fun r => with_Buffer (Some (res_Body resp)) (with_res (Some resp) r)) ;;;
      ret (Some (res_Body resp), None)
  end.

Definition response : M (option bytes * option error) :=
  r <- self ;;
  match err r with
  | Some e => ret (Buffer r, Some e)
  | None =>
      if isBodyClosed r then ret (Buffer r, None)
      else update (with_isBodyClosed true) ;;; Do
  end.

(** *** Terminal accessors *)

Definition Response : M unit :=
  out <- response ;;
  r <- self ;;
  invoke (mkHandlerCall (req r) (res r) (of_Buffer (fst out)) (snd out)).

Definition ResponseBytes : M unit :=
  out <- response ;;
  r <- self ;;
  b <- Buffer_Bytes (fst out) ;;
  invoke (mkHandlerCall (req r) (res r) (of_bytes b) (snd out)).

Definition ResponseString : M unit :=
  out <- response ;;
  r <- self ;;
  invoke (mkHandlerCall (req r) (res r) (of_string (Buffer_String (fst out))) (snd out)).

Definition ResponseJSON : M unit :=
  out <- response ;;
  match snd out with
  | Some e =>
      r <- self ;;
      invoke (mkHandlerCall (req r) (res r) (of_JSONMaps None) (Some e))
  | None =>
      b <- Buffer_Bytes (fst out) ;;
      let decoded := json_Unmarshal b in
      r <- self ;;
      invoke (mkHandlerCall (req r) (res r) (of_JSONMaps (fst decoded)) (snd decoded))
  end.

(** *** Validation *)

Definition Validate : M unit := ret tt.

Definition validateAcceptContentType (m : gmap string string) : M bool := ret true.

Definition ValidateAcceptContentType (m : gmap string string) : M bool := ret true.

(** The [for _, c := range statusCodes] loop. *)
Fixpoint range_match (statusCode : Z) (statusCodes : list Z) : bool :=
  match statusCodes with
  | [] => false
  | c :: rest => if decide (statusCode = c) then true else range_match statusCode rest
  end.

(** [r.res.StatusCode] dereferences [r.res]. *)
Definition validateStatusCode (statusCodes : list Z) : M bool :=
  r <- self ;;
  match res r with
  | None => panic nil_dereference
  | Some rs =>
      let statusCode := StatusCode rs in
      if (0 <? List.length statusCodes)%nat then
        ret (range_match statusCode statusCodes)
      else if ((200 <=? statusCode) && (statusCode <? 300))%Z then ret true
      else ret false
  end.

Definition invalid_status_code (statusCode : Z) : error :=
  errors_New ("http: invalid status code " +:+ Itoa statusCode).

Definition ValidateStatusCode (statusCodes : list Z) : M unit :=
  response ;;;
  ok <- validateStatusCode statusCodes ;;
  if negb ok then
    r <- self ;;
    match res r with
    | None => panic nil_dereference
    | Some rs => update (with_err (Some (invalid_status_code (StatusCode rs))))
    end
  else ret tt.

Definition Cancel : M unit := ret tt.

(** *** Call sequences *)

(** The calls a user of the builder can chain.  A handler argument is not
    part of the call: see [World]. *)
Inductive Call : Type :=
| call_Query (data : Data)
| call_Parameters (data : Data)
| call_Encoding (t : string)
| call_Authenticate (username password : string)
| call_Progress
| call_Response
| call_ResponseBytes
| call_ResponseString
| call_ResponseJSON
| call_Validate
| call_ValidateAcceptContentType (m : gmap string string)
| call_ValidateStatusCode (statusCodes : list Z)
| call_Cancel.

(** The terminal accessors among them. *)
Definition is_accessor (c : Call) : bool :=
  match c with
  | call_Response | call_ResponseBytes | call_ResponseString
  | call_ResponseJSON | call_ValidateStatusCode _ => true
  | _ => false
  end.

Definition forget {A} (m : M A) : M unit := m ;;; ret tt.

Definition run_call (c : Call) : M unit :=
  match c with
  | call_Query data => Query data
  | call_Parameters data => Parameters data
  | call_Encoding t => Encoding t
  | call_Authenticate u p => Authenticate u p
  | call_Progress => Progress
  | call_Response => Response
  | call_ResponseBytes => ResponseBytes
  | call_ResponseString => ResponseString
  | call_ResponseJSON => ResponseJSON
  | call_Validate => Validate
  | call_ValidateAcceptContentType m => forget (ValidateAcceptContentType m)
  | call_ValidateStatusCode statusCodes => ValidateStatusCode statusCodes
  | call_Cancel => Cancel
  end.

(** The state after a call, whether it returned or panicked and was
    recovered from. *)
Definition after (c : Call) (s : State) : State := snd (run_call c s).

Definition after_all (cs : list Call) (s : State) : State :=
  fold_left (fun s c => after c s) cs s.

(** The number of requests handed to the HTTP client so far. *)
Definition dispatches (s : State) : nat := List.length (sent (snd s)).

End Builder.

(** ** Concrete collaborators and builders *)

(** A value space for [interface{}]: integers, which the JSON codec
    marshals, and channels, which it refuses. *)
Inductive demo_value : Type :=
| demo_int (n : Z)
| demo_chan.

Definition demo_Marshal (v : demo_value) : bytes + error :=
  match v with
  | demo_int n => inl (bytes_of_string (Itoa n))
  | demo_chan => inr (foreign_error "json" "json: unsupported type: chan int")
  end.

(** A codec that decodes the one object [{"x":1}] and rejects the rest. *)
Definition double_quote : string := String (ascii_of_nat 34) "".

Definition json_x_1 : string :=
  "{" +:+ double_quote +:+ "x" +:+ double_quote +:+ ":1}".

Definition demo_Unmarshal (b : bytes) : @JSONMaps demo_value * option error :=
  if decide (string_of_bytes b = json_x_1)
  then (Some {[ "x" := demo_int 1 ]}, None)
  else (Some ∅, Some (foreign_error "json" "invalid character")).

Definition demo_Encode (v : Values) : string := "".

Definition connection_refused : error :=
  foreign_error "net" "dial tcp: connection refused".

(** An HTTP client for which every request fails. *)
Definition refusing (history : list http_Request) (q : http_Request) : http_Response + error :=
  inr connection_refused.

(** An HTTP client that answers every request alike. *)
Definition serving (status : Z) (body : string) (history : list http_Request) (q : http_Request)
  : http_Response + error :=
  inl (mkResponse status ∅ (bytes_of_string body)).

Definition demo_URL : URL := mkURL "http" "example.org" "/items" "".

(** Modelled from the spec: the constructor, which is not in
    [qrequest.go] ("a builder is created with a method and URL"): nothing
    sent, nothing cached, no error, an empty header map. *)
Definition new_builder (m : methods_Method) (u : URL) : Qrequest :=
  mkQrequest m "http://example.org/items" u None None false ∅ None 0 false None None.

Definition quiet : @World demo_value := mkWorld [] [].

(** A POST builder and a GET builder on which nothing has been called. *)
Definition fresh_POST : @State demo_value := (new_builder POST demo_URL, quiet).

Definition fresh_GET : @State demo_value := (new_builder GET demo_URL, quiet).

(** Calls made with the demo codec, by the HTTP client in use. *)
Definition demo_after (client_Do : list http_Request -> http_Request -> http_Response + error)
  : Call -> State -> State :=
  after demo_Marshal demo_Unmarshal demo_Encode client_Do (fun s => s).

Definition demo_after_all (client_Do : list http_Request -> http_Request -> http_Response + error)
  : list Call -> State -> State :=
  after_all demo_Marshal demo_Unmarshal demo_Encode client_Do (fun s => s).

(** The answers of two servers, one with a body that is not JSON. *)
Definition gone : http_Response := mkResponse 404 ∅ (bytes_of_string "gone").

Definition not_json : http_Response := mkResponse 200 ∅ (bytes_of_string "not json").

(** The builder right after [Do] has built its request and before the
    HTTP client has answered. *)
Definition dispatching (r : Qrequest) : Qrequest :=
  with_client true
    (with_req (Some (request_of r))
       (with_Header (req_Header (request_of r)) (with_isBodyClosed true r))).

(** The builder once the client has answered with [rs]. *)
Definition answered (rs : http_Response) (r : Qrequest) : Qrequest :=
  with_Buffer (Some (res_Body rs)) (with_res (Some rs) (dispatching r)).

Definition record_sent {GoValue} (q : http_Request) (w : @World GoValue) : World :=
  mkWorld (sent w ++ [q]) (calls w).

Definition record_call {GoValue} (c : @HandlerCall GoValue) (w : World) : World :=
  mkWorld (sent w) (calls w ++ [c]).

(** ** Vocabulary of the properties *)

Section Vocabulary.

Context {GoValue : Type}.
Variable client_Do : list http_Request -> http_Request -> http_Response + error.

Local Abbreviation State := (@State GoValue).
Local Abbreviation World := (@World GoValue).
Local Abbreviation M := (@M GoValue).

(** The four ways a call of [response] can go. *)
Inductive response_case (r : Qrequest) (w : World)
  : Outcome (option bytes * option error) * State -> Prop :=
| rc_sticky e :
    err r = Some e ->
    response_case r w (Ret (Buffer r, Some e), (r, w))
| rc_cached :
    err r = None -> isBodyClosed r = true ->
    response_case r w (Ret (Buffer r, None), (r, w))
| rc_failure e :
    err r = None -> isBodyClosed r = false ->
    client_Do (sent w) (request_of r) = inr e ->
    response_case r w (Ret (None, Some e), (dispatching r, record_sent (request_of r) w))
| rc_success rs :
    err r = None -> isBodyClosed r = false ->
    client_Do (sent w) (request_of r) = inl rs ->
    response_case r w
      (Ret (Some (res_Body rs), None), (answered rs r, record_sent (request_of r) w)).

(** A step that hands nothing to the HTTP client and keeps the flag. *)
Definition silent (s s' : State) : Prop :=
  sent (snd s') = sent (snd s)
  /\ (isBodyClosed (fst s) = true -> isBodyClosed (fst s') = true).

(** A step that hands exactly one request over and raises the flag. *)
Definition dispatching_step (s s' : State) : Prop :=
  isBodyClosed (fst s) = false
  /\ isBodyClosed (fst s') = true
  /\ exists q, sent (snd s') = (sent (snd s) ++ [q])%list.

(** What follows the call of [response] inside an accessor touches
    neither the wire nor the flag. *)
Definition harmless {A} (k : M A) : Prop :=
  forall s : State, sent (snd (snd (k s))) = sent (snd s)
            /\ isBodyClosed (fst (snd (k s))) = isBodyClosed (fst s).

End Vocabulary.

(** The verdict of [validateStatusCode] on a builder that holds a
    response. *)
Definition verdict (statusCode : Z) (statusCodes : list Z) : bool :=
  if (0 <? List.length statusCodes)%nat then range_match statusCode statusCodes
  else (200 <=? statusCode)%Z && (statusCode <? 300)%Z.

(** The byte is one of the two letters given. *)
Definition either_case (lower upper c : ascii) : bool :=
  (Ascii.eqb c lower || Ascii.eqb c upper)%bool.

(** The name is "JSON" in any mix of upper and lower case. *)
Definition is_JSON_any_case (t : string) : bool :=
  match t with
  | String a (String b (String c (String d EmptyString))) =>
      (either_case "j" "J" a && either_case "s" "S" b
       && either_case "o" "O" c && either_case "n" "N" d)%bool
  | _ => false
  end.

(** ** Vocabulary of the further properties *)

(** An HTTP client that answers with the body it was sent. *)
Definition echoing (history : list http_Request) (q : http_Request)
  : http_Response + error :=
  inl (mkResponse 200 ∅ (match req_Body q with Some b => b | None => [] end)).

(** The length recorded beside a body is the number of bytes it yields. *)
Definition length_matches_body (r : Qrequest) : Prop :=
  match Body r with
  | Some b => Length r = Z.of_nat (List.length b)
  | None => True
  end.

(** The same on a request: no body and length zero, or a body and its
    number of bytes. *)
Definition content_length_ok (q : http_Request) : Prop :=
  req_ContentLength q
  = match req_Body q with
    | Some b => Z.of_nat (List.length b)
    | None => 0%Z
    end.

Section Frames.

Context {GoValue : Type}.

Local Abbreviation State := (@State GoValue).
Local Abbreviation M := (@M GoValue).

(** A computation keeps a property of the state, whether it returns or
    panics. *)
Definition keeps {A} (P : State -> Prop) (m : M A) : Prop :=
  forall s, P s -> P (snd (m s)).

(** The property survives what an accessor does besides [response]:
    storing an error and calling a handler. *)
Record accessor_stable (P : State -> Prop) : Prop := {
  stable_err : forall r w e, P (r, w) -> P (with_err (Some e) r, w);
  stable_call : forall r w c, P (r, w) -> P (r, record_call c w)
}.

(** The property survives what the configuration calls do: a new query,
    a new header map, a body stored with its length, an error stored. *)
Record configuration_stable (P : State -> Prop) : Prop := {
  stable_Uri : forall r w u, P (r, w) -> P (with_Uri u r, w);
  stable_Header : forall r w h, P (r, w) -> P (with_Header h r, w);
  stable_Body :
    forall r w b, P (r, w) -> P (with_Body (Some b) (Z.of_nat (List.length b)) r, w);
  stable_marshal_err : forall r w e, P (r, w) -> P (with_err (Some e) r, w)
}.

(** A builder for which [Do] has never run, so that its body is still
    unread, and whose length is that of its body. *)
Definition unsent_lengths_agree (s : State) : Prop :=
  req (fst s) = None /\ length_matches_body (fst s).

(** A builder with a sticky error, in a world where [wire] was sent. *)
Definition stuck (wire : list http_Request) (s : State) : Prop :=
  err (fst s) <> None /\ sent (snd s) = wire.

(** The fields an accessor has no business with are those of [r0]. *)
Definition configured_as (r0 : Qrequest) (s : State) : Prop :=
  Method (fst s) = Method r0 /\ Url (fst s) = Url r0 /\ Uri (fst s) = Uri r0
  /\ Length (fst s) = Length r0.

(** The accessors that take a handler. *)
Definition takes_handler (c : @Call GoValue) : bool :=
  match c with
  | call_Response | call_ResponseBytes | call_ResponseString | call_ResponseJSON => true
  | _ => false
  end.

End Frames.


(** * Properties *)

Section Properties.

Context {GoValue : Type}.
Variable json_Marshal : GoValue -> bytes + error.
Variable json_Unmarshal : bytes -> @JSONMaps GoValue * option error.
Variable Values_Encode : Values -> string.
Variable client_Do : list http_Request -> http_Request -> http_Response + error.
Variable unicode_ToUpper : string -> string.

Local Abbreviation State := (@State GoValue).
Local Abbreviation World := (@World GoValue).
Local Abbreviation M := (@M GoValue).
Local Abbreviation harmless k := (@harmless GoValue _ k).
Local Abbreviation run := (after json_Marshal json_Unmarshal Values_Encode client_Do unicode_ToUpper).
Local Abbreviation run_all := (after_all json_Marshal json_Unmarshal Values_Encode client_Do unicode_ToUpper).

(** ** What [response] does, case by case *)

Lemma response_sticky (r : Qrequest) (w : World) (e : error) :
  err r = Some e ->
  response client_Do (r, w) = (Ret (Buffer r, Some e), (r, w)).
Proof. intros He. unfold response, bind, self, ret. simpl. now rewrite He. Qed.

Lemma response_cached (r : Qrequest) (w : World) :
  err r = None -> isBodyClosed r = true ->
  response client_Do (r, w) = (Ret (Buffer r, None), (r, w)).
Proof. intros He Hc. unfold response, bind, self, ret. simpl. now rewrite He, Hc. Qed.

Lemma request_of_flags (r : Qrequest) (c : bool) :
  request_of (with_isBodyClosed c r) = request_of r.
Proof. reflexivity. Qed.

Lemma response_dispatch_failure (r : Qrequest) (w : World) (e : error) :
  err r = None -> isBodyClosed r = false ->
  client_Do (sent w) (request_of r) = inr e ->
  response client_Do (r, w)
  = (Ret (None, Some e), (dispatching r, record_sent (request_of r) w)).
Proof.
  intros He Hc Hd. unfold response, bind, self, ret. simpl. rewrite He, Hc.
  unfold Do, bind, self, update, send, ret. simpl.
  rewrite request_of_flags, Hd. reflexivity.
Qed.

Lemma response_dispatch_success (r : Qrequest) (w : World) (rs : http_Response) :
  err r = None -> isBodyClosed r = false ->
  client_Do (sent w) (request_of r) = inl rs ->
  response client_Do (r, w)
  = (Ret (Some (res_Body rs), None), (answered rs r, record_sent (request_of r) w)).
Proof.
  intros He Hc Hd. unfold response, bind, self, ret. simpl. rewrite He, Hc.
  unfold Do, bind, self, update, send, ret. simpl.
  rewrite request_of_flags, Hd. reflexivity.
Qed.

Lemma response_cases (r : Qrequest) (w : World) :
  response_case client_Do r w (response client_Do (r, w)).
Proof.
  destruct (err r) as [e|] eqn:He.
  - rewrite (response_sticky r w e He). now constructor.
  - destruct (isBodyClosed r) eqn:Hc.
    + rewrite (response_cached r w He Hc). now constructor.
    + destruct (client_Do (sent w) (request_of r)) as [rs|e] eqn:Hd.
      * rewrite (response_dispatch_success r w rs He Hc Hd). now constructor.
      * rewrite (response_dispatch_failure r w e He Hc Hd). now constructor.
Qed.

Lemma response_closed (r : Qrequest) (w : World) :
  isBodyClosed r = true ->
  response client_Do (r, w) = (Ret (Buffer r, err r), (r, w)).
Proof.
  intros Hc. destruct (err r) as [e|] eqn:He.
  - now apply response_sticky.
  - now apply response_cached.
Qed.

(** ** Frame of the calls on the wire and on the memo flag *)

Lemma response_step (s : State) :
  silent s (snd (response client_Do s))
  \/ dispatching_step s (snd (response client_Do s)).
Proof.
  destruct s as [r w].
  destruct (response_cases r w); simpl.
  - left. now split.
  - left. now split.
  - right. repeat split; trivial. now exists (request_of r).
  - right. repeat split; trivial. now exists (request_of r).
Qed.

Lemma response_returns (s : State) :
  exists out, fst (response client_Do s) = Ret out.
Proof. destruct s as [r w]. destruct (response_cases r w); simpl; eauto. Qed.

Lemma after_response (k : option bytes * option error -> M unit) (s : State) :
  (forall out, harmless (k out)) ->
  silent s (snd (bind (response client_Do) k s))
  \/ dispatching_step s (snd (bind (response client_Do) k s)).
Proof.
  intros Hk. unfold bind.
  destruct (response_returns s) as [out Hout].
  pose proof (response_step s) as Hstep.
  destruct (response client_Do s) as [o s1]. simpl in Hout. subst o.
  destruct (Hk out s1) as [Hs Hf]. simpl in Hstep.
  destruct Hstep as [[H1 H2]|(H1 & H2 & q & H3)].
  - left. split; [congruence|]. intros H. rewrite Hf. auto.
  - right. repeat split; [assumption|congruence|]. exists q. congruence.
Qed.

Lemma harmless_ret {A} (a : A) : harmless (ret a).
Proof. intros s. now split. Qed.

Lemma harmless_panic {A} (msg : string) : harmless (@panic GoValue A msg).
Proof. intros s. now split. Qed.

Lemma harmless_self : harmless self.
Proof. intros s. now split. Qed.

Lemma harmless_invoke (c : HandlerCall) : harmless (invoke c).
Proof. intros [r w]. now split. Qed.

Lemma harmless_with_err (e : option error) : harmless (update (with_err e)).
Proof. intros [r w]. now split. Qed.

Lemma harmless_bind {A B} (m : M A) (k : A -> M B) :
  harmless m -> (forall a, harmless (k a)) -> harmless (bind m k).
Proof.
  intros Hm Hk s. unfold bind. specialize (Hm s).
  destruct (m s) as [[a|msg] s1]; simpl in *.
  - destruct (Hk a s1) as [H1 H2]. destruct Hm as [H3 H4]. split; congruence.
  - exact Hm.
Qed.

Lemma harmless_Buffer_Bytes (body : option bytes) : harmless (Buffer_Bytes body).
Proof. destruct body; [apply harmless_ret | apply harmless_panic]. Qed.

Lemma harmless_validateStatusCode (statusCodes : list Z) :
  harmless (validateStatusCode statusCodes).
Proof.
  apply harmless_bind; [apply harmless_self|]. intros r.
  destruct (res r); [|apply harmless_panic]. cbv zeta.
  repeat case_match; apply harmless_ret.
Qed.

Create HintDb harmless.

#[local] Hint Resolve harmless_ret harmless_panic harmless_self harmless_invoke
  harmless_with_err harmless_Buffer_Bytes harmless_validateStatusCode : harmless.

Ltac harmless_tac :=
  intros;
  repeat first
    [ apply harmless_bind; [solve [auto with harmless]|intros]
    | solve [auto with harmless]
    | case_match ].

Lemma run_step (c : Call) (s : State) :
  silent s (run c s) \/ (is_accessor c = true /\ dispatching_step s (run c s)).
Proof.
  unfold after.
  destruct c; simpl;
    try (left; destruct s as [r w]; split; [|intros Hc]; simpl in *;
         unfold Query, Parameters, pack, Encoding, Authenticate, Progress, Validate,
           forget, ValidateAcceptContentType, Cancel, bind, self, update, lift, ret,
           packBodyByBytesBuffer, packBodyByBytesReader, packBodyByStringsReader,
           packBodyByString, packBodyByBytes;
         simpl; repeat case_match; simpl in *; simplify_eq;
         solve [reflexivity | assumption]).
  - destruct (after_response
      (fun out => bind self (fun r => invoke (mkHandlerCall (req r) (res r) (of_Buffer (fst out)) (snd out)))) s)
      as [H|H]; [harmless_tac | now left | now right].
  - destruct (after_response
      (fun out => bind self (fun r => bind (Buffer_Bytes (fst out)) (fun b =>
         invoke (mkHandlerCall (req r) (res r) (of_bytes b) (snd out))))) s)
      as [H|H]; [harmless_tac | now left | now right].
  - destruct (after_response
      (fun out => bind self (fun r =>
         invoke (mkHandlerCall (req r) (res r) (of_string (Buffer_String (fst out))) (snd out)))) s)
      as [H|H]; [harmless_tac | now left | now right].
  - destruct (after_response
      (fun out => match snd out with
        | Some e => bind self (fun r => invoke (mkHandlerCall (req r) (res r) (of_JSONMaps None) (Some e)))
        | None => bind (Buffer_Bytes (fst out)) (fun b =>
            bind self (fun r => invoke (mkHandlerCall (req r) (res r)
               (of_JSONMaps (fst (json_Unmarshal b))) (snd (json_Unmarshal b)))))
        end) s)
      as [H|H]; [harmless_tac | now left | now right].
  - destruct (after_response
      (fun _ => bind (validateStatusCode statusCodes) (fun ok =>
         if negb ok then bind self (fun r =>
           match res r with
           | None => panic nil_dereference
           | Some rs => update (with_err (Some (invalid_status_code (StatusCode rs))))
           end) else ret tt)) s)
      as [H|H]; [harmless_tac | now left | now right].
Qed.

Lemma run_all_cons (c : Call) (cs : list Call) (s : State) :
  run_all (c :: cs) s = run_all cs (run c s).
Proof. reflexivity. Qed.

(** Once the flag is up, no sequence of calls reaches the HTTP client. *)
Lemma closed_stays_silent (cs : list Call) (s : State) :
  isBodyClosed (fst s) = true ->
  sent (snd (run_all cs s)) = sent (snd s)
  /\ isBodyClosed (fst (run_all cs s)) = true.
Proof.
  revert s. induction cs as [|c cs IH]; intros s Hc; [now split|].
  rewrite run_all_cons.
  destruct (run_step c s) as [[Hs Hf]|[_ (Hopen & _)]]; [|congruence].
  destruct (IH (run c s) (Hf Hc)) as [H1 H2]. split; congruence.
Qed.

Lemma at_most_one_dispatch (cs : list Call) (s : State) :
  (dispatches (run_all cs s) <= S (dispatches s))%nat.
Proof.
  revert s. induction cs as [|c cs IH]; intros s; [simpl; lia|].
  rewrite run_all_cons.
  destruct (run_step c s) as [[Hs Hf]|[_ (Hopen & Hclosed & q & Hq)]].
  - specialize (IH (run c s)). unfold dispatches in *. rewrite Hs in IH. exact IH.
  - destruct (closed_stays_silent cs (run c s) Hclosed) as [H1 _].
    unfold dispatches. rewrite H1, Hq, length_app. simpl. lia.
Qed.

(** C3: on a builder whose method is GET, HEAD or DELETE, [Parameters]
    returns at once for every input, nil pointers included: the whole
    builder, hence its [Body], [Length] and [err], and the world are as
    they were. *)
Theorem Parameters_noop_when_parameters_go_in_URL
  (data : Data) (r : Qrequest) (w : World) :
  Method r = GET \/ Method r = HEAD \/ Method r = DELETE ->
  Parameters json_Marshal Values_Encode data (r, w) = (Ret tt, (r, w)).
Proof.
  intros Hm. unfold Parameters, bind, self. simpl.
  replace (encodesParametersInURL (Method r)) with true; [reflexivity|].
  destruct Hm as [-> | [-> | ->]]; reflexivity.
Qed.

(** X20: whatever the calls made on a builder, configuration calls and
    terminal accessors alike, at most one more request reaches the HTTP
    client; when a call has dispatched (it is then a terminal accessor),
    no later call dispatches again, whether the client answered or
    failed, and every later [response] hands back the [Buffer] and [err]
    fields as the builder then holds them and changes nothing. *)
Theorem dispatch_at_most_once (s : State) (c : Call) (cs : list Call) :
  (dispatches (run_all (c :: cs) s) <= S (dispatches s))%nat
  /\ (sent (snd (run c s)) <> sent (snd s) ->
      is_accessor c = true
      /\ sent (snd (run_all cs (run c s))) = sent (snd (run c s))
      /\ response client_Do (run_all cs (run c s))
         = (Ret (Buffer (fst (run_all cs (run c s))), err (fst (run_all cs (run c s)))),
            run_all cs (run c s))).
Proof.
  split; [apply at_most_one_dispatch|].
  intros Hsent.
  destruct (run_step c s) as [[Hs _]|[Hacc (_ & Hclosed & _)]]; [congruence|].
  destruct (closed_stays_silent cs (run c s) Hclosed) as [H1 H2].
  repeat split; trivial.
  destruct (run_all cs (run c s)) as [r' w']. now apply response_closed.
Qed.

(** ** Status validation *)

Lemma range_match_In (statusCode : Z) (statusCodes : list Z) :
  range_match statusCode statusCodes = true <-> In statusCode statusCodes.
Proof.
  induction statusCodes as [|c rest IH]; simpl.
  - split; [discriminate|tauto].
  - destruct (decide (statusCode = c)) as [->|Hne].
    + split; auto.
    + rewrite IH. split; [auto|]. intros [H|H]; [congruence|assumption].
Qed.

Lemma validateStatusCode_verdict (r : Qrequest) (w : World) (rs : http_Response)
  (statusCodes : list Z) :
  res r = Some rs ->
  validateStatusCode statusCodes (r, w)
  = (Ret (verdict (StatusCode rs) statusCodes), (r, w)).
Proof.
  intros Hres. unfold validateStatusCode, verdict, bind, self, ret. simpl.
  rewrite Hres. cbv zeta.
  destruct (0 <? List.length statusCodes)%nat; [reflexivity|].
  destruct ((200 <=? StatusCode rs)%Z && (StatusCode rs <? 300)%Z); reflexivity.
Qed.

Lemma verdict_spec (statusCode : Z) (statusCodes : list Z) :
  verdict statusCode statusCodes = true
  <-> (statusCodes <> [] /\ In statusCode statusCodes)
      \/ (statusCodes = [] /\ (200 <= statusCode < 300)%Z).
Proof.
  unfold verdict. destruct statusCodes as [|c rest]; simpl.
  - rewrite andb_true_iff, Z.leb_le, Z.ltb_lt. split.
    + intros H. right. now split.
    + intros [[H _]|[_ H]]; [congruence|exact H].
  - change (if decide (statusCode = c) then true else range_match statusCode rest)
      with (range_match statusCode (c :: rest)).
    rewrite range_match_In. split.
    + intros H. left. split; [discriminate|exact H].
    + intros [[_ H]|[H _]]; [exact H|discriminate].
Qed.

(** C5: on a builder that holds a response once [response] has run,
    [ValidateStatusCode] returns; its check succeeds exactly when, for a
    non-empty argument list, the status code is one of the codes given,
    and for an empty one, the status code is at least 200 and below 300;
    on success the builder is as [response] left it, on failure its
    sticky error is [errors.New] of "http: invalid status code " followed
    by the decimal status code. *)
Theorem ValidateStatusCode_checks_status
  (s : State) (statusCodes : list Z) (out : option bytes * option error)
  (r1 : Qrequest) (w1 : World) (rs : http_Response) :
  response client_Do s = (Ret out, (r1, w1)) ->
  res r1 = Some rs ->
  exists ok : bool,
    validateStatusCode statusCodes (r1, w1) = (Ret ok, (r1, w1))
    /\ (ok = true <->
        (statusCodes <> [] /\ In (StatusCode rs) statusCodes)
        \/ (statusCodes = [] /\ (200 <= StatusCode rs < 300)%Z))
    /\ ValidateStatusCode client_Do statusCodes s
       = (Ret tt,
          (if ok then r1
           else with_err
                  (Some (errors_New ("http: invalid status code " +:+ Itoa (StatusCode rs))))
                  r1,
           w1)).
Proof.
  intros Hresp Hres. exists (verdict (StatusCode rs) statusCodes).
  split; [now apply validateStatusCode_verdict|].
  split; [apply verdict_spec|].
  unfold ValidateStatusCode, bind. rewrite Hresp.
  rewrite (validateStatusCode_verdict r1 w1 rs statusCodes Hres).
  destruct (verdict (StatusCode rs) statusCodes); simpl; [reflexivity|].
  unfold self. simpl. rewrite Hres. reflexivity.
Qed.

(** C10: when the first dispatch fails, nothing is stored in [res]; on a
    builder that held no response before, [ValidateStatusCode] then
    dereferences the nil [res] and panics, the request having been sent. *)
Theorem ValidateStatusCode_panics_after_failed_dispatch
  (r : Qrequest) (w : World) (statusCodes : list Z) (e : error) :
  err r = None -> isBodyClosed r = false -> res r = None ->
  client_Do (sent w) (request_of r) = inr e ->
  ValidateStatusCode client_Do statusCodes (r, w)
  = (Panic nil_dereference, (dispatching r, record_sent (request_of r) w)).
Proof.
  intros He Hc Hres Hd. unfold ValidateStatusCode, bind.
  rewrite (response_dispatch_failure r w e He Hc Hd).
  unfold validateStatusCode, bind, self. simpl. rewrite Hres. reflexivity.
Qed.

(** ** The request that is dispatched *)

Lemma Do_sends_request_of (r : Qrequest) (w : World) :
  sent (snd (snd (Do client_Do (r, w)))) = (sent w ++ [request_of r])%list.
Proof.
  unfold Do, bind, self, update, send, ret. simpl.
  destruct (client_Do (sent w) (request_of r)); reflexivity.
Qed.

Lemma request_of_Header (r : Qrequest) :
  req_Header (request_of r) = with_default_content_type (Header r).
Proof. unfold request_of. destruct (Body r); reflexivity. Qed.

Lemma Header_Get_Set (h : http_Header) (key value : string) :
  Header_Get (Header_Set h key value) key = value.
Proof. unfold Header_Get, Header_Set. now rewrite lookup_insert_eq. Qed.

Lemma Header_Get_unset (h : http_Header) (key : string) :
  h !! key = None -> Header_Get h key = "".
Proof. intros H. unfold Header_Get. now rewrite H. Qed.

(** C7, amended: [Do] hands exactly one request to the HTTP client.
    When [Header.Get] finds no Content-Type in the builder, which is the
    case of a missing header and also of a header whose first value is
    the empty string, the request carries the builder's headers with
    Content-Type replaced by "application/x-www-form-urlencoded"; when
    it finds a non-empty value, the request carries the builder's
    headers unchanged, that value included. *)
Theorem Do_defaults_empty_content_type (r : Qrequest) (w : World) :
  sent (snd (snd (Do client_Do (r, w)))) = (sent w ++ [request_of r])%list
  /\ (Header r !! "Content-Type" = None -> Header_Get (Header r) "Content-Type" = "")
  /\ (Header_Get (Header r) "Content-Type" = "" ->
      req_Header (request_of r)
      = Header_Set (Header r) "Content-Type" "application/x-www-form-urlencoded"
      /\ Header_Get (req_Header (request_of r)) "Content-Type"
         = "application/x-www-form-urlencoded")
  /\ (Header_Get (Header r) "Content-Type" <> "" ->
      req_Header (request_of r) = Header r).
Proof.
  split; [apply Do_sends_request_of|]. rewrite request_of_Header.
  unfold with_default_content_type. split; [apply Header_Get_unset|]. split.
  - intros Hget.
    destruct (decide (Header_Get (Header r) "Content-Type" = "")) as [_|Hne];
      [|contradiction].
    split; [reflexivity|apply Header_Get_Set].
  - intros Hget.
    destruct (decide (Header_Get (Header r) "Content-Type" = "")) as [Heq|_];
      [contradiction|reflexivity].
Qed.

(** ** Accessors on a cached buffer *)

Lemma response_buffer_cached
  (r r1 : Qrequest) (w w1 : World) (buf : bytes) :
  response client_Do (r, w) = (Ret (Some buf, None), (r1, w1)) ->
  err r1 = None /\ isBodyClosed r1 = true /\ Buffer r1 = Some buf.
Proof.
  intros H. destruct (response_cases r w) as [e He|He Hc|e He Hc Hd|rs He Hc Hd];
    inversion H; subst; simpl; auto.
Qed.

(** C8: on a builder for which [response] hands back a buffer and no
    error, [ResponseJSON] calls its handler with what the JSON codec
    gives for the buffered bytes: the mapping and no error when decoding
    succeeds, the decoder's error when it fails.  Either way the builder
    is as [response] left it, with no sticky error, and a later
    [ResponseBytes] calls its handler with the buffered bytes and no
    error. *)
Theorem ResponseJSON_decode_error_not_sticky
  (r r1 : Qrequest) (w w1 : World) (buf : bytes) :
  response client_Do (r, w) = (Ret (Some buf, None), (r1, w1)) ->
  let decoded := json_Unmarshal buf in
  let w2 :=
    record_call
      (mkHandlerCall (req r1) (res r1) (of_JSONMaps (fst decoded)) (snd decoded)) w1 in
  ResponseJSON json_Unmarshal client_Do (r, w) = (Ret tt, (r1, w2))
  /\ err r1 = None
  /\ ResponseBytes client_Do (r1, w2)
     = (Ret tt,
        (r1, record_call (mkHandlerCall (req r1) (res r1) (of_bytes buf) None) w2)).
Proof.
  intros Hresp decoded w2.
  destruct (response_buffer_cached r r1 w w1 buf Hresp) as (He & Hc & Hb).
  split; [|split; [exact He|]].
  - unfold ResponseJSON, bind. rewrite Hresp. reflexivity.
  - unfold ResponseBytes, bind. rewrite (response_cached r1 w2 He Hc), Hb.
    reflexivity.
Qed.

(** ** Accessors after a failed dispatch *)

Lemma ResponseString_returns (s : State) :
  fst (ResponseString client_Do s) = Ret tt.
Proof.
  unfold ResponseString, bind.
  destruct (response_returns s) as [out Hout].
  destruct (response client_Do s) as [o s1]. simpl in Hout. subst o.
  reflexivity.
Qed.

(** C9, amended: when the first dispatch of a builder fails, [Do] hands
    back a nil buffer with the error.  [ResponseBytes] then calls [Bytes]
    on the nil buffer and panics before its handler is reached, on this
    call and, no buffer being cached, on the next.  [ResponseString] does
    reach its handler: [String] on a nil buffer yields "<nil>", which is
    delivered together with the transport error. *)
Theorem failed_dispatch_ResponseBytes_panics_ResponseString_returns
  (r : Qrequest) (w : World) (e : error) :
  err r = None -> isBodyClosed r = false ->
  client_Do (sent w) (request_of r) = inr e ->
  let w1 := record_sent (request_of r) w in
  ResponseBytes client_Do (r, w) = (Panic nil_dereference, (dispatching r, w1))
  /\ (Buffer r = None ->
      ResponseBytes client_Do (dispatching r, w1)
      = (Panic nil_dereference, (dispatching r, w1)))
  /\ ResponseString client_Do (r, w)
     = (Ret tt,
        (dispatching r,
         record_call
           (mkHandlerCall (Some (request_of r)) (res r) (of_string "<nil>") (Some e))
           w1)).
Proof.
  intros He Hc Hd w1. repeat split.
  - unfold ResponseBytes, bind.
    rewrite (response_dispatch_failure r w e He Hc Hd). reflexivity.
  - intros Hb. unfold ResponseBytes, bind.
    rewrite (response_cached (dispatching r) w1 He eq_refl). simpl.
    rewrite Hb. reflexivity.
  - unfold ResponseString, bind.
    rewrite (response_dispatch_failure r w e He Hc Hd). reflexivity.
Qed.

(** ** Parameters that are marshaled to JSON *)

Lemma Parameters_marshal_failure
  (r : Qrequest) (w : World) (t : GoValue) (e : error) :
  encodesParametersInURL (Method r) = false ->
  json_Marshal t = inr e ->
  Parameters json_Marshal Values_Encode (go_other t) (r, w)
  = (Ret tt, (with_err (Some e) r, w)).
Proof.
  intros Hm Hj. unfold Parameters, pack, bind, self, update, ret. simpl.
  rewrite Hm, Hj. reflexivity.
Qed.

Lemma Parameters_marshal_success
  (r : Qrequest) (w : World) (t : GoValue) (b : bytes) :
  encodesParametersInURL (Method r) = false ->
  json_Marshal t = inl b ->
  Parameters json_Marshal Values_Encode (go_other t) (r, w)
  = (Ret tt, (with_Body (Some b) (Z.of_nat (List.length b)) r, w)).
Proof.
  intros Hm Hj. unfold Parameters, pack, bind, self, update, ret. simpl.
  rewrite Hm, Hj. reflexivity.
Qed.

(** With a sticky error and a buffer at hand, every handler is given the
    error. *)
Lemma sticky_error_reported (r : Qrequest) (w : World) (e : error) :
  err r = Some e ->
  Response client_Do (r, w)
  = (Ret tt, (r, record_call (mkHandlerCall (req r) (res r) (of_Buffer (Buffer r)) (Some e)) w))
  /\ ResponseString client_Do (r, w)
     = (Ret tt, (r, record_call
          (mkHandlerCall (req r) (res r) (of_string (Buffer_String (Buffer r))) (Some e)) w))
  /\ ResponseJSON json_Unmarshal client_Do (r, w)
     = (Ret tt, (r, record_call (mkHandlerCall (req r) (res r) (of_JSONMaps None) (Some e)) w))
  /\ (forall b, Buffer r = Some b ->
      ResponseBytes client_Do (r, w)
      = (Ret tt, (r, record_call (mkHandlerCall (req r) (res r) (of_bytes b) (Some e)) w)))
  /\ (Buffer r = None ->
      ResponseBytes client_Do (r, w) = (Panic nil_dereference, (r, w))).
Proof.
  intros He.
  unfold Response, ResponseString, ResponseJSON, ResponseBytes, bind.
  rewrite (response_sticky r w e He). simpl.
  repeat split; try reflexivity; intros; simpl.
  - rewrite H. reflexivity.
  - rewrite H. reflexivity.
Qed.

(** ** Encoding *)

Lemma either_case_inv (lower upper c : ascii) :
  either_case lower upper c = true -> c = lower \/ c = upper.
Proof.
  unfold either_case. rewrite orb_true_iff, !Ascii.eqb_eq. tauto.
Qed.

Lemma is_JSON_any_case_ToUpper (t : string) :
  is_JSON_any_case t = true -> ToUpper unicode_ToUpper t = "JSON".
Proof.
  destruct t as [|a [|b [|c [|d [|? ?]]]]]; simpl; try discriminate.
  rewrite !andb_true_iff. intros [[[Ha Hb] Hc] Hd].
  apply either_case_inv in Ha, Hb, Hc, Hd.
  destruct Ha as [-> | ->], Hb as [-> | ->], Hc as [-> | ->], Hd as [-> | ->];
    reflexivity.
Qed.

Lemma upper_byte_inv (lower upper c : ascii) :
  upper_byte lower = upper -> lower <> upper ->
  is_ascii_byte c = true -> upper_byte c = upper ->
  upper_byte upper = upper -> either_case lower upper c = true.
Proof.
  intros Hl Hne Hc Hu Hfix. unfold either_case.
  apply orb_true_iff. rewrite !Ascii.eqb_eq.
  unfold upper_byte in Hu.
  destruct ((97 <=? nat_of_ascii c)%nat && (nat_of_ascii c <=? 122)%nat) eqn:Hrange.
  - left. unfold upper_byte in Hl.
    destruct ((97 <=? nat_of_ascii lower)%nat && (nat_of_ascii lower <=? 122)%nat)
      eqn:Hlr; [|congruence].
    apply andb_true_iff in Hrange, Hlr.
    destruct Hrange as [H1 H2], Hlr as [H3 H4].
    apply Nat.leb_le in H1, H2, H3, H4.
    assert (Heq : (nat_of_ascii c - 32 = nat_of_ascii lower - 32)%nat).
    { rewrite <- (nat_ascii_embedding (nat_of_ascii c - 32)) by lia.
      rewrite <- (nat_ascii_embedding (nat_of_ascii lower - 32)) by lia.
      congruence. }
    rewrite <- (ascii_nat_embedding c), <- (ascii_nat_embedding lower).
    f_equal. lia.
  - right. exact Hu.
Qed.

Lemma ToUpper_JSON_ascii (t : string) :
  isASCII t = true -> ToUpper unicode_ToUpper t = "JSON" ->
  is_JSON_any_case t = true.
Proof.
  intros Hascii. unfold ToUpper. rewrite Hascii.
  destruct t as [|a [|b [|c [|d [|? ?]]]]]; simpl; try discriminate.
  simpl in Hascii. rewrite !andb_true_iff in Hascii.
  destruct Hascii as (Ha & Hb & Hc & Hd & _).
  intros H. injection H as H1 H2 H3 H4.
  rewrite !andb_true_iff. repeat split.
  - apply (upper_byte_inv "j" "J" a); [reflexivity|discriminate|assumption..|reflexivity].
  - apply (upper_byte_inv "s" "S" b); [reflexivity|discriminate|assumption..|reflexivity].
  - apply (upper_byte_inv "o" "O" c); [reflexivity|discriminate|assumption..|reflexivity].
  - apply (upper_byte_inv "n" "N" d); [reflexivity|discriminate|assumption..|reflexivity].
Qed.

Lemma upper_ascii_nonempty (t : string) : t <> "" -> upper_ascii t <> "".
Proof. destruct t; [congruence|discriminate]. Qed.

Lemma Encoding_unfold (t : string) (r : Qrequest) (w : World) :
  Encoding unicode_ToUpper t (r, w)
  = let u := ToUpper unicode_ToUpper t in
    if decide (u = "JSON")
    then (Ret tt, (with_Header (Header_Set (Header r) "Content-Type" "application/json") r, w))
    else if decide (u = "")
         then (Ret tt, (r, w))
         else (Ret tt, (with_Header (Header_Set (Header r) "Content-Type" u) r, w)).
Proof.
  unfold Encoding. cbv zeta.
  destruct (decide (ToUpper unicode_ToUpper t = "JSON")) as [Heq|Hne].
  - destruct (decide ("application/json" <> "")) as [_|Hn]; [reflexivity|].
    exfalso. apply Hn. discriminate.
  - destruct (decide (ToUpper unicode_ToUpper t = "")) as [He|He].
    + destruct (decide (ToUpper unicode_ToUpper t <> "")); [contradiction|reflexivity].
    + destruct (decide (ToUpper unicode_ToUpper t <> "")); [reflexivity|contradiction].
Qed.

(** C6, amended: with the empty name [Encoding] changes nothing; with a
    name whose upper case, [strings.ToUpper] of the name, is "JSON" it
    sets Content-Type to "application/json"; with every other name it
    sets Content-Type to the name in upper case, not to the name as
    given.  The three cases cover every name.  "JSON" in any mix of
    upper and lower case is a name of the second case, and the names of
    ASCII bytes of the second case are exactly those. *)
Theorem Encoding_sets_upper_cased_name (t : string) (r : Qrequest) (w : World) :
  (forall s : string, s <> "" -> unicode_ToUpper s <> "") ->
  (t = "" -> Encoding unicode_ToUpper t (r, w) = (Ret tt, (r, w)))
  /\ (ToUpper unicode_ToUpper t = "JSON" ->
      Encoding unicode_ToUpper t (r, w)
      = (Ret tt,
         (with_Header (Header_Set (Header r) "Content-Type" "application/json") r, w)))
  /\ (t <> "" -> ToUpper unicode_ToUpper t <> "JSON" ->
      Encoding unicode_ToUpper t (r, w)
      = (Ret tt,
         (with_Header
            (Header_Set (Header r) "Content-Type" (ToUpper unicode_ToUpper t)) r, w)))
  /\ (is_JSON_any_case t = true -> ToUpper unicode_ToUpper t = "JSON")
  /\ (isASCII t = true ->
      (ToUpper unicode_ToUpper t = "JSON" <-> is_JSON_any_case t = true)
      /\ ToUpper unicode_ToUpper t = upper_ascii t).
Proof.
  intros Hunicode. rewrite Encoding_unfold. cbv zeta. repeat split.
  - intros ->. reflexivity.
  - intros Hj. rewrite Hj. reflexivity.
  - intros Ht Hne.
    destruct (decide (ToUpper unicode_ToUpper t = "JSON")); [contradiction|].
    destruct (decide (ToUpper unicode_ToUpper t = "")) as [He|_]; [|reflexivity].
    exfalso. unfold ToUpper in He. destruct (isASCII t).
    + now apply (upper_ascii_nonempty t Ht).
    + now apply (Hunicode t Ht).
  - apply is_JSON_any_case_ToUpper.
  - now apply ToUpper_JSON_ascii.
  - apply is_JSON_any_case_ToUpper.
  - unfold ToUpper. now rewrite H.
Qed.

(** C1: the outcome of a failed dispatch is not cached.  On a builder
    with no error and no buffer that has not dispatched, when the HTTP
    client fails with [e], the first [response] sends one request and
    hands back a nil buffer with [e]; the second sends nothing, as the
    claim says, but hands back a nil buffer with a nil error, so that a
    second [Response] calls its handler with no error instead of the
    outcome of the dispatch. *)
Theorem failed_dispatch_outcome_is_not_cached (r : Qrequest) (w : World) (e : error) :
  err r = None -> isBodyClosed r = false -> Buffer r = None ->
  client_Do (sent w) (request_of r) = inr e ->
  let s1 := (dispatching r, record_sent (request_of r) w) in
  response client_Do (r, w) = (Ret (None, Some e), s1)
  /\ response client_Do s1 = (Ret (None, None), s1)
  /\ Response client_Do (r, w)
     = (Ret tt,
        (dispatching r,
         record_call
           (mkHandlerCall (Some (request_of r)) (res r) (of_Buffer None) (Some e))
           (snd s1)))
  /\ Response client_Do s1
     = (Ret tt,
        (dispatching r,
         record_call
           (mkHandlerCall (Some (request_of r)) (res r) (of_Buffer None) None)
           (snd s1))).
Proof.
  intros He Hc Hb Hd s1.
  assert (H1 : response client_Do (r, w) = (Ret (None, Some e), s1))
    by now apply response_dispatch_failure.
  assert (H2 : response client_Do s1 = (Ret (None, None), s1)).
  { unfold s1. rewrite (response_cached (dispatching r) _ He eq_refl).
    simpl. now rewrite Hb. }
  split; [exact H1|]. split; [exact H2|].
  unfold Response, bind. rewrite H1, H2. split; reflexivity.
Qed.

End Properties.

(** * The properties at concrete builders *)

Lemma Parameters_noop_when_parameters_go_in_URL_witness :
  (Method (new_builder GET demo_URL) = GET
   \/ Method (new_builder GET demo_URL) = HEAD
   \/ Method (new_builder GET demo_URL) = DELETE)
  /\ Parameters demo_Marshal demo_Encode (go_other demo_chan) fresh_GET
     = (Ret tt, fresh_GET).
Proof.
  split; [left; reflexivity|].
  apply (Parameters_noop_when_parameters_go_in_URL demo_Marshal demo_Encode
           (go_other demo_chan) (new_builder GET demo_URL) quiet).
  left; reflexivity.
Defined.

Lemma failed_dispatch_outcome_is_not_cached_witness :
  let r := new_builder POST demo_URL in
  let s1 := (dispatching r, record_sent (request_of r) quiet) in
  response refusing (r, quiet) = (Ret (None, Some connection_refused), s1)
  /\ response refusing s1 = (Ret (None, None), s1)
  /\ Response refusing (r, quiet)
     = (Ret tt,
        (dispatching r,
         record_call
           (mkHandlerCall (Some (request_of r)) (res r) (of_Buffer None)
              (Some connection_refused))
           (snd s1)))
  /\ Response refusing s1
     = (Ret tt,
        (dispatching r,
         record_call
           (mkHandlerCall (Some (request_of r)) (res r) (of_Buffer None) None)
           (snd s1))).
Proof.
  exact (failed_dispatch_outcome_is_not_cached refusing (new_builder POST demo_URL) quiet
           connection_refused eq_refl eq_refl eq_refl eq_refl).
Defined.


Lemma dispatch_at_most_once_witness :
  let s1 := demo_after refusing call_ResponseString fresh_POST in
  let s2 := demo_after_all refusing [call_Response; call_ResponseJSON] s1 in
  sent (snd s1) <> sent (snd fresh_POST)
  /\ is_accessor (@call_ResponseString demo_value) = true
  /\ sent (snd s2) = sent (snd s1)
  /\ response refusing s2 = (Ret (Buffer (fst s2), err (fst s2)), s2).
Proof.
  intros s1 s2.
  assert (H : sent (snd s1) <> sent (snd fresh_POST)) by (vm_compute; discriminate).
  split; [exact H|].
  exact (proj2 (dispatch_at_most_once demo_Marshal demo_Unmarshal demo_Encode refusing
                  (fun s => s) fresh_POST call_ResponseString
                  [call_Response; call_ResponseJSON]) H).
Defined.

Lemma ValidateStatusCode_checks_status_witness :
  let r1 := answered gone (new_builder POST demo_URL) in
  let w1 := record_sent (request_of (new_builder POST demo_URL)) quiet in
  response (serving 404 "gone") fresh_POST
  = (Ret (Some (res_Body gone), None), (r1, w1))
  /\ res r1 = Some gone
  /\ exists ok : bool,
       validateStatusCode [200; 201]%Z (r1, w1) = (Ret ok, (r1, w1))
       /\ (ok = true <->
           ([200; 201]%Z <> [] /\ In (StatusCode gone) [200; 201]%Z)
           \/ ([200; 201]%Z = [] /\ (200 <= StatusCode gone < 300)%Z))
       /\ ValidateStatusCode (serving 404 "gone") [200; 201]%Z fresh_POST
          = (Ret tt,
             (if ok then r1
              else with_err
                     (Some (errors_New
                              ("http: invalid status code " +:+ Itoa (StatusCode gone))))
                     r1,
              w1)).
Proof.
  intros r1 w1.
  assert (H1 : response (serving 404 "gone") fresh_POST
               = (Ret (Some (res_Body gone), None), (r1, w1))) by reflexivity.
  assert (H2 : res r1 = Some gone) by reflexivity.
  split; [exact H1|]. split; [exact H2|].
  exact (ValidateStatusCode_checks_status (serving 404 "gone") fresh_POST [200; 201]%Z
           (Some (res_Body gone), None) r1 w1 gone H1 H2).
Defined.

Lemma ValidateStatusCode_panics_after_failed_dispatch_witness :
  err (new_builder POST demo_URL) = None
  /\ isBodyClosed (new_builder POST demo_URL) = false
  /\ res (new_builder POST demo_URL) = None
  /\ refusing (sent quiet) (request_of (new_builder POST demo_URL)) = inr connection_refused
  /\ ValidateStatusCode refusing [] fresh_POST
     = (Panic nil_dereference,
        (dispatching (new_builder POST demo_URL),
         record_sent (request_of (new_builder POST demo_URL)) quiet)).
Proof.
  repeat (split; [reflexivity|]).
  exact (ValidateStatusCode_panics_after_failed_dispatch refusing
           (new_builder POST demo_URL) quiet [] connection_refused
           eq_refl eq_refl eq_refl eq_refl).
Defined.

Lemma Do_defaults_empty_content_type_witness :
  let r := new_builder POST demo_URL in
  let r0 := with_Header (Header_Set ∅ "Content-Type" "") r in
  let r' := with_Header (Header_Set ∅ "Content-Type" "text/xml") r in
  (Header r !! "Content-Type" = None /\ Header_Get (Header r) "Content-Type" = "")
  /\ (Header_Get (Header r0) "Content-Type" = ""
      /\ req_Header (request_of r0)
         = Header_Set (Header r0) "Content-Type" "application/x-www-form-urlencoded"
      /\ Header_Get (req_Header (request_of r0)) "Content-Type"
         = "application/x-www-form-urlencoded")
  /\ (Header_Get (Header r') "Content-Type" <> ""
      /\ req_Header (request_of r') = Header r').
Proof.
  intros r r0 r'.
  assert (H1 : Header r !! "Content-Type" = None) by reflexivity.
  assert (H2 : Header_Get (Header r0) "Content-Type" = "") by reflexivity.
  assert (H3 : Header_Get (Header r') "Content-Type" <> "") by discriminate.
  split; [|split].
  - split; [exact H1|].
    exact (proj1 (proj2 (@Do_defaults_empty_content_type demo_value refusing r quiet)) H1).
  - split; [exact H2|].
    exact (proj1 (proj2 (proj2
             (@Do_defaults_empty_content_type demo_value refusing r0 quiet))) H2).
  - split; [exact H3|].
    exact (proj2 (proj2 (proj2
             (@Do_defaults_empty_content_type demo_value refusing r' quiet))) H3).
Defined.

(** C7, as stated, fails: a builder whose Content-Type was set to the
    empty string with [Header.Set] dispatches a request that carries the
    default content type and not the value that was set. *)
Lemma empty_Content_Type_is_not_preserved :
  let r := with_Header (Header_Set ∅ "Content-Type" "") (new_builder POST demo_URL) in
  Header r !! "Content-Type" = Some [""]
  /\ sent (snd (snd (Do refusing (r, quiet)))) = [request_of r]
  /\ req_Header (request_of r) !! "Content-Type"
     = Some ["application/x-www-form-urlencoded"]
  /\ req_Header (request_of r) !! "Content-Type" <> Header r !! "Content-Type".
Proof.
  split; [reflexivity|]. split; [reflexivity|]. split; [reflexivity|].
  vm_compute. discriminate.
Qed.

Lemma ResponseJSON_decode_error_not_sticky_witness :
  let r1 := answered not_json (new_builder POST demo_URL) in
  let w1 := record_sent (request_of (new_builder POST demo_URL)) quiet in
  let decoded := demo_Unmarshal (res_Body not_json) in
  let w2 :=
    record_call
      (mkHandlerCall (req r1) (res r1) (of_JSONMaps (fst decoded)) (snd decoded)) w1 in
  response (serving 200 "not json") fresh_POST
  = (Ret (Some (res_Body not_json), None), (r1, w1))
  /\ snd decoded = Some (foreign_error "json" "invalid character")
  /\ ResponseJSON demo_Unmarshal (serving 200 "not json") fresh_POST = (Ret tt, (r1, w2))
  /\ err r1 = None
  /\ ResponseBytes (serving 200 "not json") (r1, w2)
     = (Ret tt,
        (r1, record_call
               (mkHandlerCall (req r1) (res r1) (of_bytes (res_Body not_json)) None) w2)).
Proof.
  intros r1 w1 decoded w2.
  assert (H : response (serving 200 "not json") fresh_POST
              = (Ret (Some (res_Body not_json), None), (r1, w1))) by reflexivity.
  split; [exact H|]. split; [reflexivity|].
  exact (ResponseJSON_decode_error_not_sticky demo_Unmarshal (serving 200 "not json")
           (new_builder POST demo_URL) r1 quiet w1 (res_Body not_json) H).
Defined.

Lemma failed_dispatch_ResponseBytes_panics_ResponseString_returns_witness :
  let r := new_builder POST demo_URL in
  let w1 := record_sent (request_of r) quiet in
  (err r = None /\ isBodyClosed r = false
   /\ refusing (sent quiet) (request_of r) = inr connection_refused)
  /\ ResponseBytes refusing (r, quiet) = (Panic nil_dereference, (dispatching r, w1))
  /\ (Buffer r = None ->
      ResponseBytes refusing (dispatching r, w1)
      = (Panic nil_dereference, (dispatching r, w1)))
  /\ ResponseString refusing (r, quiet)
     = (Ret tt,
        (dispatching r,
         record_call
           (mkHandlerCall (Some (request_of r)) (res r) (of_string "<nil>")
              (Some connection_refused))
           w1)).
Proof.
  intros r w1. split; [repeat split|].
  exact (failed_dispatch_ResponseBytes_panics_ResponseString_returns refusing
           r quiet connection_refused eq_refl eq_refl eq_refl).
Defined.

Lemma Encoding_sets_upper_cased_name_witness :
  let r := new_builder POST demo_URL in
  (forall s : string, s <> "" -> (fun x : string => x) s <> "")
  /\ (ToUpper (fun x => x) "jSoN" = "JSON"
      /\ Encoding (fun x => x) "jSoN" (r, quiet)
         = (Ret tt,
            (with_Header (Header_Set (Header r) "Content-Type" "application/json") r,
             quiet)))
  /\ ("text/plain" <> ""
      /\ ToUpper (fun x => x) "text/plain" <> "JSON"
      /\ Encoding (fun x => x) "text/plain" (r, quiet)
         = (Ret tt,
            (with_Header (Header_Set (Header r) "Content-Type" "TEXT/PLAIN") r, quiet))).
Proof.
  intros r.
  assert (H0 : forall s : string, s <> "" -> (fun x : string => x) s <> "")
    by (intros s Hs; exact Hs).
  assert (HJ : ToUpper (fun x => x) "jSoN" = "JSON") by reflexivity.
  assert (H1 : "text/plain" <> "") by discriminate.
  assert (H2 : ToUpper (fun x => x) "text/plain" <> "JSON") by discriminate.
  split; [exact H0|]. split.
  - split; [exact HJ|].
    exact (proj1 (proj2
             (Encoding_sets_upper_cased_name (fun x => x) "jSoN" r quiet H0)) HJ).
  - split; [exact H1|]. split; [exact H2|].
    exact (proj1 (proj2 (proj2
             (Encoding_sets_upper_cased_name (fun x => x) "text/plain" r quiet H0))) H1 H2).
Defined.

(** C6, as stated, fails: the name "text/plain" is neither empty nor
    "JSON" in any case, and the Content-Type that [Encoding] stores is
    "TEXT/PLAIN", which is not the name given. *)
Lemma Encoding_does_not_keep_the_name :
  "text/plain" <> ""
  /\ is_JSON_any_case "text/plain" = false
  /\ Header_Get (Header (fst (demo_after refusing (call_Encoding "text/plain") fresh_POST)))
       "Content-Type"
     = "TEXT/PLAIN"
  /\ Header_Get (Header (fst (demo_after refusing (call_Encoding "text/plain") fresh_POST)))
       "Content-Type"
     <> "text/plain".
Proof.
  split; [discriminate|]. split; [reflexivity|].
  split; [reflexivity|]. vm_compute. discriminate.
Qed.

(** C9, as stated, fails for [ResponseString]: there is no builder whose
    first dispatch fails and on which [ResponseString] panics. *)
Lemma ResponseString_never_panics_after_failed_dispatch :
  ~ exists (client_Do : list http_Request -> http_Request -> http_Response + error)
      (r : Qrequest) (w : @World demo_value) (e : error) (msg : string),
      err r = None /\ isBodyClosed r = false
      /\ client_Do (sent w) (request_of r) = inr e
      /\ fst (ResponseString client_Do (r, w)) = Panic msg.
Proof.
  intros (client_Do & r & w & e & msg & _ & _ & _ & H).
  rewrite ResponseString_returns in H. discriminate.
Qed.

(** C2: with an HTTP client that refuses every connection, a fresh POST
    builder does not deliver the transport error on every call.
    [ResponseBytes] panics on the nil buffer and its handler is never
    called; of two calls of [Response] the first is given the error and
    the second none; and [ResponseJSON] after the failed dispatch is
    handed no error, so it goes on to decode and panics on the nil
    buffer. *)
Theorem transport_error_is_not_delivered_on_every_call :
  fst (ResponseBytes refusing fresh_POST) = Panic nil_dereference
  /\ calls (snd (snd (ResponseBytes refusing fresh_POST))) = []
  /\ map call_err
       (calls (snd (demo_after_all refusing [call_Response; call_Response] fresh_POST)))
     = [Some connection_refused; None]
  /\ fst (ResponseJSON demo_Unmarshal refusing (demo_after refusing call_Response fresh_POST))
     = Panic nil_dereference.
Proof. repeat split. Qed.

(** C4: a POST builder given a channel, which the JSON codec refuses,
    records the codec's error and keeps its body unset; the error is then
    handed to the handler of [Response], but [ResponseBytes] panics on
    the nil buffer before its handler is called, and nothing is ever
    sent. *)
Theorem marshal_error_is_not_reported_by_ResponseBytes :
  let s1 := demo_after refusing (call_Parameters (go_other demo_chan)) fresh_POST in
  err (fst s1) = Some (foreign_error "json" "json: unsupported type: chan int")
  /\ Body (fst s1) = None
  /\ map call_err (calls (snd (demo_after refusing call_Response s1)))
     = [Some (foreign_error "json" "json: unsupported type: chan int")]
  /\ fst (ResponseBytes refusing s1) = Panic nil_dereference
  /\ calls (snd (snd (ResponseBytes refusing s1))) = []
  /\ dispatches (snd (ResponseBytes refusing s1)) = 0%nat.
Proof. repeat split. Qed.

(** * Further properties of the builder *)

Section Further.

Context {GoValue : Type}.
Variable json_Marshal : GoValue -> bytes + error.
Variable json_Unmarshal : bytes -> @JSONMaps GoValue * option error.
Variable Values_Encode : Values -> string.
Variable client_Do : list http_Request -> http_Request -> http_Response + error.
Variable unicode_ToUpper : string -> string.

Local Abbreviation State := (@State GoValue).
Local Abbreviation World := (@World GoValue).
Local Abbreviation M := (@M GoValue).
Local Abbreviation run := (after json_Marshal json_Unmarshal Values_Encode client_Do unicode_ToUpper).
Local Abbreviation run_all := (after_all json_Marshal json_Unmarshal Values_Encode client_Do unicode_ToUpper).
Local Abbreviation run_call := (run_call json_Marshal json_Unmarshal Values_Encode client_Do unicode_ToUpper).
Local Abbreviation keeps P m := (@keeps GoValue _ P m).

(** ** Properties kept along a computation *)

Lemma keeps_ret {A} (P : State -> Prop) (a : A) : keeps P (ret a).
Proof. intros s H. exact H. Qed.

Lemma keeps_panic {A} (P : State -> Prop) (msg : string) :
  keeps P (@panic GoValue A msg).
Proof. intros s H. exact H. Qed.

Lemma keeps_self (P : State -> Prop) : keeps P self.
Proof. intros s H. exact H. Qed.

Lemma keeps_lift {A} (P : State -> Prop) (o : Outcome A) : keeps P (lift o).
Proof. intros s H. exact H. Qed.

Lemma keeps_bind {A B} (P : State -> Prop) (m : M A) (k : A -> M B) :
  keeps P m -> (forall a, keeps P (k a)) -> keeps P (bind m k).
Proof.
  intros Hm Hk s Hs. unfold bind. specialize (Hm s Hs).
  destruct (m s) as [[a|msg] s1]; simpl in *; [now apply Hk|exact Hm].
Qed.

Lemma keeps_invoke (P : State -> Prop) (c : HandlerCall) :
  accessor_stable P -> keeps P (invoke c).
Proof. intros [_ Hc] [r w] H. now apply Hc. Qed.

Lemma keeps_Buffer_Bytes (P : State -> Prop) (body : option bytes) :
  keeps P (Buffer_Bytes body).
Proof. destruct body; [apply keeps_ret|apply keeps_panic]. Qed.

Lemma keeps_validateStatusCode (P : State -> Prop) (statusCodes : list Z) :
  keeps P (validateStatusCode statusCodes).
Proof.
  apply keeps_bind; [apply keeps_self|]. intros r.
  destruct (res r); [|apply keeps_panic]. cbv zeta.
  repeat case_match; apply keeps_ret.
Qed.

(** An accessor keeps what [response] keeps, if storing an error and
    calling a handler keep it. *)
Lemma accessor_keeps (P : State -> Prop) (c : Call) :
  accessor_stable P -> keeps P (response client_Do) ->
  is_accessor c = true -> keeps P (run_call c).
Proof.
  intros HP Hr Hc. destruct c; try discriminate; simpl.
  - apply keeps_bind; [exact Hr|]. intros out.
    apply keeps_bind; [apply keeps_self|]. intros r. now apply keeps_invoke.
  - apply keeps_bind; [exact Hr|]. intros out.
    apply keeps_bind; [apply keeps_self|]. intros r.
    apply keeps_bind; [apply keeps_Buffer_Bytes|]. intros b. now apply keeps_invoke.
  - apply keeps_bind; [exact Hr|]. intros out.
    apply keeps_bind; [apply keeps_self|]. intros r. now apply keeps_invoke.
  - apply keeps_bind; [exact Hr|]. intros out. destruct (snd out).
    + apply keeps_bind; [apply keeps_self|]. intros r. now apply keeps_invoke.
    + apply keeps_bind; [apply keeps_Buffer_Bytes|]. intros b.
      apply keeps_bind; [apply keeps_self|]. intros r. now apply keeps_invoke.
  - apply keeps_bind; [exact Hr|]. intros _.
    apply keeps_bind; [apply keeps_validateStatusCode|]. intros ok.
    destruct (negb ok); [|apply keeps_ret].
    apply keeps_bind; [apply keeps_self|]. intros r.
    destruct (res r); [|apply keeps_panic].
    intros [r' w'] H. now apply (stable_err P HP).
Qed.

Lemma length_bytes_of_string (s : string) :
  List.length (bytes_of_string s) = String.length s.
Proof.
  unfold bytes_of_string, list_byte_of_string. rewrite length_map.
  induction s as [|c s IH]; simpl; congruence.
Qed.

(** A configuration call keeps what its four kinds of update keep. *)
Lemma configuration_keeps (P : State -> Prop) (c : Call) :
  configuration_stable P -> is_accessor c = false -> keeps P (run_call c).
Proof.
  intros [HU HH HB HE] Hc. destruct c; try discriminate; simpl;
    try (intros s H; exact H).
  - intros [r w] H. now apply HU.
  - intros [r w] H. unfold Parameters, bind, self. simpl.
    destruct (encodesParametersInURL (Method r)); [exact H|].
    destruct data as [t|t|t|[t|]|[t|]|[t|]|t]; simpl; try exact H.
    + unfold packBodyByString. rewrite <- length_bytes_of_string. now apply HB.
    + unfold packBodyByString. rewrite <- length_bytes_of_string. now apply HB.
    + now apply HB.
    + now apply HB.
    + now apply HB.
    + rewrite <- length_bytes_of_string. now apply HB.
    + unfold bind, update, ret. destruct (json_Marshal t) as [b|e]; simpl.
      * now apply HB.
      * now apply HE.
  - intros [r w] H. unfold Encoding. cbv zeta.
    destruct (decide _); [|exact H]. now apply HH.
Qed.

Lemma run_all_keeps (P : State -> Prop) (cs : list Call) (s : State) :
  (forall c, keeps P (run_call c)) -> P s -> P (run_all cs s).
Proof.
  intros Hc. revert s. induction cs as [|c cs IH]; intros s Hs; [exact Hs|].
  simpl. apply IH. now apply Hc.
Qed.

(** ** Lengths *)

Lemma request_of_content_length (r : Qrequest) :
  length_matches_body r -> content_length_ok (request_of r).
Proof.
  unfold length_matches_body, content_length_ok, request_of.
  destruct (Body r); simpl; auto.
Qed.

Lemma unsent_lengths_configuration_stable :
  configuration_stable (@unsent_lengths_agree GoValue).
Proof.
  split; intros r w x [Hq Hb]; split; trivial.
  unfold length_matches_body. simpl. reflexivity.
Qed.

(** X3: on a builder for which [Do] has never run and whose length is
    that of its body (a new builder has no body), every sequence of
    configuration calls keeps both, and the request the builder would
    then dispatch declares a content length equal to the number of bytes
    of its body, zero when it has none; the next [response] sends that
    request or nothing.  The bytes of an adopted reader are those it
    held when [Parameters] was called. *)
Theorem lengths_agree_before_dispatch (cs : list Call) (s : State) :
  forallb (fun c => negb (is_accessor c)) cs = true ->
  req (fst s) = None ->
  length_matches_body (fst s) ->
  let s' := run_all cs s in
  req (fst s') = None
  /\ length_matches_body (fst s')
  /\ content_length_ok (request_of (fst s'))
  /\ (sent (snd (snd (response client_Do s'))) = sent (snd s')
      \/ sent (snd (snd (response client_Do s')))
         = (sent (snd s') ++ [request_of (fst s')])%list).
Proof.
  intros Hcs Hq Hb. cbv zeta.
  assert (H : unsent_lengths_agree (run_all cs s)).
  { assert (H0 : unsent_lengths_agree s) by now split.
    clear Hq Hb. revert s H0 Hcs.
    induction cs as [|c cs IH]; intros s H0 Hcs; [exact H0|].
    simpl in Hcs. apply andb_true_iff in Hcs. destruct Hcs as [Hc Hcs].
    simpl. apply IH; trivial.
    apply (configuration_keeps unsent_lengths_agree c); trivial.
    - apply unsent_lengths_configuration_stable.
    - now destruct (is_accessor c). }
  destruct H as [Hq' Hb']. repeat split; trivial.
  - now apply request_of_content_length.
  - destruct (run_all cs s) as [r' w'].
    destruct (response_cases client_Do r' w'); simpl; auto.
Qed.

(** ** A sticky error *)

Lemma response_keeps_stuck (wire : list http_Request) :
  keeps (stuck wire) (response client_Do).
Proof.
  intros [r w] [He Hs]. simpl in He.
  destruct (err r) as [e|] eqn:Hr; [|congruence].
  rewrite (response_sticky client_Do r w e Hr). split; simpl; [|exact Hs].
  rewrite Hr. discriminate.
Qed.

Lemma stuck_accessor_stable (wire : list http_Request) :
  accessor_stable (@stuck GoValue wire).
Proof. split; intros r w x [He Hs]; split; trivial; discriminate. Qed.

Lemma stuck_configuration_stable (wire : list http_Request) :
  configuration_stable (@stuck GoValue wire).
Proof. split; intros r w x [He Hs]; split; trivial; discriminate. Qed.

(** X6: an error stored in the builder is never cleared, and while the
    builder holds one no call reaches the HTTP client: after any sequence
    of calls on a builder with a sticky error the builder still has an
    error and the requests sent are those sent before. *)
Theorem sticky_error_blocks_dispatch (cs : list Call) (s : State) (e : error) :
  err (fst s) = Some e ->
  err (fst (run_all cs s)) <> None
  /\ sent (snd (run_all cs s)) = sent (snd s).
Proof.
  intros He. apply (run_all_keeps (stuck (sent (snd s)))).
  - intros c. destruct (is_accessor c) eqn:Hc.
    + apply accessor_keeps; trivial.
      * apply stuck_accessor_stable.
      * apply response_keeps_stuck.
    + apply configuration_keeps; trivial. apply stuck_configuration_stable.
  - split; [congruence|reflexivity].
Qed.

(** ** What the accessors leave alone *)

Lemma response_keeps_configuration (r0 : Qrequest) :
  keeps (configured_as r0) (response client_Do).
Proof.
  intros [r w] H. destruct (response_cases client_Do r w); exact H.
Qed.

Lemma configured_accessor_stable (r0 : Qrequest) :
  accessor_stable (@configured_as GoValue r0).
Proof. split; intros r w x H; exact H. Qed.

(** X17: no sequence of terminal accessors changes the method, the URL,
    the parsed URI or the recorded length, whatever the HTTP client
    answers and whether a call panics or not. *)
Theorem accessors_leave_configuration (cs : list Call) (s : State) :
  forallb is_accessor cs = true ->
  Method (fst (run_all cs s)) = Method (fst s)
  /\ Url (fst (run_all cs s)) = Url (fst s)
  /\ Uri (fst (run_all cs s)) = Uri (fst s)
  /\ Length (fst (run_all cs s)) = Length (fst s).
Proof.
  intros Hcs. change (configured_as (fst s) (run_all cs s)).
  assert (H0 : configured_as (fst s) s) by (repeat split).
  revert H0. generalize (fst s) as r0. revert s.
  induction cs as [|c cs IH]; intros s r0 H0; [exact H0|].
  simpl in Hcs. apply andb_true_iff in Hcs. destruct Hcs as [Hc Hcs].
  simpl. apply IH; trivial.
  apply (accessor_keeps (configured_as r0) c); trivial.
  - apply configured_accessor_stable.
  - apply response_keeps_configuration.
Qed.

(** ** Configuration calls *)

(** X1: the last [Query] wins: the state after two calls of [Query] is
    the state after the second alone.  A [Query] with an argument of a
    shape its type switch does not name (a buffer, a reader, any other
    value) leaves the empty query, erasing one set before. *)
Theorem Query_last_call_wins (d1 d2 : Data) (s : State) :
  run (call_Query d2) (run (call_Query d1) s) = run (call_Query d2) s
  /\ (forall d, (forall t, d <> url_Values t) -> (forall t, d <> go_string t) ->
                (forall t, d <> go_bytes t) ->
                RawQuery (Uri (fst (run (call_Query d) (run (call_Query d1) s)))) = "").
Proof.
  destruct s as [r w]. split; [reflexivity|].
  intros d Hv Hs Hb. destruct d as [t|t|t|t|t|t|t]; try reflexivity.
  - now destruct (Hv t).
  - now destruct (Hs t).
  - now destruct (Hb t).
Qed.

(** X2: [Query], [Parameters] and [Encoding] work on separate fields, so
    the state after two of them does not depend on their order, whatever
    their arguments and whether [Parameters] returns, records an error
    or panics. *)
Theorem configuration_calls_commute (d d' : Data) (t : string) (s : State) :
  run (call_Query d) (run (call_Parameters d') s)
  = run (call_Parameters d') (run (call_Query d) s)
  /\ run (call_Encoding t) (run (call_Parameters d') s)
     = run (call_Parameters d') (run (call_Encoding t) s)
  /\ run (call_Encoding t) (run (call_Query d) s)
     = run (call_Query d) (run (call_Encoding t) s).
Proof.
  destruct s as [r w]. unfold after. simpl.
  unfold Parameters, Encoding, Query, pack, bind, self, update, lift, ret. simpl.
  cbv zeta.
  destruct (decide _); destruct (encodesParametersInURL (Method r)) eqn:Hm;
    simpl; rewrite ?Hm; repeat split; trivial;
    destruct d' as [x|x|x|[x|]|[x|]|[x|]|x]; simpl; rewrite ?Hm; trivial;
    match goal with x : GoValue |- _ => destruct (json_Marshal x) end;
    simpl; rewrite ?Hm; reflexivity.
Qed.

(** X4: on a builder whose method carries a body, [Parameters] given a
    nil [*bytes.Buffer], [*bytes.Reader] or [*strings.Reader] panics on
    the pointer's [Len] and leaves the builder as it was. *)
Theorem Parameters_nil_pointer_panics (r : Qrequest) (w : World) :
  encodesParametersInURL (Method r) = false ->
  Parameters json_Marshal Values_Encode (bytes_Buffer None) (r, w)
  = (Panic nil_dereference, (r, w))
  /\ Parameters json_Marshal Values_Encode (bytes_Reader None) (r, w)
     = (Panic nil_dereference, (r, w))
  /\ Parameters json_Marshal Values_Encode (strings_Reader None) (r, w)
     = (Panic nil_dereference, (r, w)).
Proof.
  intros Hm. unfold Parameters, pack, bind, self, lift. simpl. rewrite Hm.
  repeat split.
Qed.

Lemma Parameters_twice (d1 d2 : Data) (r : Qrequest) (w : World) :
  encodesParametersInURL (Method r) = false ->
  let both := fst (run (call_Parameters d2) (run (call_Parameters d1) (r, w))) in
  let first := fst (run (call_Parameters d1) (r, w)) in
  let second := fst (run (call_Parameters d2) (r, w)) in
  (Body both = Body second /\ Length both = Length second /\ Body second <> None)
  \/ (Body both = Body first /\ Length both = Length first
      /\ Body second = Body r /\ Length second = Length r).
Proof.
  intros Hm. cbv zeta. unfold after. simpl.
  destruct (Parameters json_Marshal Values_Encode d1 (r, w)) as [o1 [r1 w1]] eqn:H1.
  assert (Hm1 : encodesParametersInURL (Method r1) = false).
  { revert H1. unfold Parameters, pack, bind, self, update, lift, ret. simpl.
    rewrite Hm.
    destruct d1 as [x|x|x|[x|]|[x|]|[x|]|x]; simpl; try (intros [= <- <- <-]; exact Hm).
    destruct (json_Marshal x); simpl; intros [= <- <- <-]; exact Hm. }
  simpl.
  revert Hm Hm1. generalize r1 w1. clear H1 o1 r1 w1. intros r1 w1 Hm Hm1.
  unfold Parameters, pack, bind, self, update, lift, ret. simpl.
  rewrite Hm, Hm1.
  destruct d2 as [x|x|x|[x|]|[x|]|[x|]|x]; simpl;
    try (left; repeat split; discriminate);
    try (right; repeat split; fail).
  destruct (json_Marshal x); simpl.
  - left; repeat split; discriminate.
  - right; repeat split.
Qed.

(** X5: on a builder whose method carries a body and that has none yet,
    a second call of [Parameters] that stores a body replaces the first
    one's entirely: the body and the length are those the second call
    alone would have stored.  A second call that stores nothing (its
    argument does not marshal, or is a nil pointer) leaves the body and
    length of the first. *)
Theorem Parameters_last_body_wins (d1 d2 : Data) (r : Qrequest) (w : World) :
  encodesParametersInURL (Method r) = false ->
  Body r = None ->
  let both := fst (run (call_Parameters d2) (run (call_Parameters d1) (r, w))) in
  let first := fst (run (call_Parameters d1) (r, w)) in
  let second := fst (run (call_Parameters d2) (r, w)) in
  (Body second <> None -> Body both = Body second /\ Length both = Length second)
  /\ (Body second = None -> Body both = Body first /\ Length both = Length first).
Proof.
  intros Hm Hb both first second.
  destruct (Parameters_twice d1 d2 r w Hm) as [(H1 & H2 & H3)|(H1 & H2 & H3 & H4)].
  - split; [now split|]. intros H. now destruct H3.
  - split; [|now split]. intros H. fold second in H3. congruence.
Qed.

(** ** Calling [Do] directly *)

Lemma Do_state (r : Qrequest) (w : World) :
  snd (Do client_Do (r, w))
  = (match client_Do (sent w) (request_of r) with
     | inl rs =>
         with_Buffer (Some (res_Body rs))
           (with_res (Some rs)
              (with_client true
                 (with_req (Some (request_of r))
                    (with_Header (req_Header (request_of r)) r))))
     | inr _ =>
         with_client true
           (with_req (Some (request_of r)) (with_Header (req_Header (request_of r)) r))
     end,
     record_sent (request_of r) w).
Proof.
  unfold Do, bind, self, update, send, ret. simpl.
  destruct (client_Do (sent w) (request_of r)); reflexivity.
Qed.

(** X7: [Do] is not memoised.  Called directly it always hands one more
    request to the HTTP client, whatever the memo flag and the sticky
    error, and changes neither; so on a builder that has not dispatched
    and has no error, an accessor that follows a direct [Do] dispatches
    once more. *)
Theorem Do_is_not_memoised (r : Qrequest) (w : World) :
  let s1 := snd (Do client_Do (r, w)) in
  dispatches s1 = S (dispatches (r, w))
  /\ isBodyClosed (fst s1) = isBodyClosed r
  /\ err (fst s1) = err r
  /\ (err r = None -> isBodyClosed r = false ->
      dispatches (snd (response client_Do s1)) = S (S (dispatches (r, w)))).
Proof.
  cbv zeta. rewrite Do_state. unfold dispatches.
  destruct (client_Do (sent w) (request_of r)) as [rs|e]; simpl;
    (split; [rewrite length_app; simpl; lia|]);
    (split; [reflexivity|]); (split; [reflexivity|]);
    intros He Hc;
    match goal with
    | |- context [response client_Do (?r1, ?w1)] =>
        destruct (response_cases client_Do r1 w1); simpl in *; try congruence
    end;
    rewrite !length_app; simpl; lia.
Qed.

(** ** The header map shared with the request *)

Lemma with_default_content_type_nonempty (h : http_Header) :
  Header_Get (with_default_content_type h) "Content-Type" <> "".
Proof.
  unfold with_default_content_type.
  destruct (decide (Header_Get h "Content-Type" = "")) as [He|Hne]; [|exact Hne].
  rewrite Header_Get_Set. discriminate.
Qed.

Lemma with_default_content_type_fixed (h : http_Header) :
  Header_Get h "Content-Type" <> "" -> with_default_content_type h = h.
Proof.
  intros Hne. unfold with_default_content_type.
  destruct (decide (Header_Get h "Content-Type" = "")); [contradiction|reflexivity].
Qed.

(** X8: the request's header map is the builder's own, so a dispatch
    writes the default content type into the builder too: after [Do] the
    builder's headers are those of the request just sent, their
    Content-Type is not empty, and a request built from the builder
    again would carry the same headers. *)
Theorem Do_writes_headers_through (r : Qrequest) (w : World) :
  let r1 := fst (snd (Do client_Do (r, w))) in
  Header r1 = req_Header (request_of r)
  /\ Header_Get (Header r1) "Content-Type" <> ""
  /\ req_Header (request_of r1) = Header r1.
Proof.
  cbv zeta. rewrite Do_state. simpl.
  assert (H : Header
                match client_Do (sent w) (request_of r) with
                | inl rs =>
                    with_Buffer (Some (res_Body rs))
                      (with_res (Some rs)
                         (with_client true
                            (with_req (Some (request_of r))
                               (with_Header (req_Header (request_of r)) r))))
                | inr _ =>
                    with_client true
                      (with_req (Some (request_of r))
                         (with_Header (req_Header (request_of r)) r))
                end
              = req_Header (request_of r))
    by (now destruct (client_Do _ _)).
  rewrite (request_of_Header (match client_Do _ _ with inl _ => _ | inr _ => _ end)).
  rewrite H, request_of_Header.
  pose proof (with_default_content_type_nonempty (Header r)) as Hne.
  split; [reflexivity|]. split; [exact Hne|].
  now apply with_default_content_type_fixed.
Qed.

(** ** Encoding and the request *)

Lemma Header_Set_Set (h : http_Header) (key v1 v2 : string) :
  Header_Set (Header_Set h key v1) key v2 = Header_Set h key v2.
Proof. unfold Header_Set. apply insert_insert_eq. Qed.

Lemma ToUpper_ascii_nonempty (t : string) :
  isASCII t = true -> t <> "" -> ToUpper unicode_ToUpper t <> "".
Proof.
  intros Ha Ht. unfold ToUpper. rewrite Ha. destruct t; [congruence|discriminate].
Qed.

(** The content type [Encoding] stores for a name of ASCII bytes. *)
Lemma Encoding_ascii (t : string) (r : Qrequest) (w : World) :
  isASCII t = true -> t <> "" ->
  Encoding unicode_ToUpper t (r, w)
  = (Ret tt,
     (with_Header
        (Header_Set (Header r) "Content-Type"
           (if is_JSON_any_case t then "application/json" else upper_ascii t)) r, w)).
Proof.
  intros Ha Ht. rewrite Encoding_unfold. cbv zeta.
  pose proof (ToUpper_ascii_nonempty t Ha Ht) as Hne.
  destruct (is_JSON_any_case t) eqn:Hj.
  - rewrite (is_JSON_any_case_ToUpper unicode_ToUpper t Hj). reflexivity.
  - destruct (decide (ToUpper unicode_ToUpper t = "JSON")) as [Hu|_].
    + apply (ToUpper_JSON_ascii unicode_ToUpper t Ha) in Hu. congruence.
    + destruct (decide (ToUpper unicode_ToUpper t = "")); [contradiction|].
      unfold ToUpper. rewrite Ha. reflexivity.
Qed.

(** X9: after [Encoding] with a non-empty name of ASCII bytes, the
    request the builder would dispatch carries that encoding and not the
    default: "application/json" for "JSON" in any mix of case, the name
    in upper case otherwise. *)
Theorem Encoding_reaches_the_request (t : string) (s : State) :
  isASCII t = true -> t <> "" ->
  Header_Get (req_Header (request_of (fst (run (call_Encoding t) s)))) "Content-Type"
  = if is_JSON_any_case t then "application/json" else upper_ascii t.
Proof.
  intros Ha Ht. destruct s as [r w]. unfold after. simpl.
  rewrite (Encoding_ascii t r w Ha Ht). simpl.
  rewrite request_of_Header. simpl.
  rewrite with_default_content_type_fixed; rewrite Header_Get_Set; [reflexivity|].
  destruct (is_JSON_any_case t); [discriminate|].
  destruct t; [congruence|discriminate].
Qed.

(** X10: the last [Encoding] with a non-empty name wins, and the empty
    name changes nothing: for names of ASCII bytes, the state after
    [Encoding t1] then [Encoding t2] is the state after [Encoding t2]
    alone when [t2] is not empty, and the state after [Encoding t1] when
    it is. *)
Theorem Encoding_last_name_wins (t1 t2 : string) (s : State) :
  isASCII t1 = true -> isASCII t2 = true ->
  (t2 <> "" ->
   run (call_Encoding t2) (run (call_Encoding t1) s) = run (call_Encoding t2) s)
  /\ (t2 = "" ->
      run (call_Encoding t2) (run (call_Encoding t1) s) = run (call_Encoding t1) s).
Proof.
  intros H1 H2. destruct s as [r w]. unfold after. simpl. split.
  - intros Ht2. destruct (decide (t1 = "")) as [->|Ht1].
    + reflexivity.
    + rewrite (Encoding_ascii t1 r w H1 Ht1). simpl.
      rewrite !(Encoding_ascii t2 _ w H2 Ht2). simpl.
      unfold with_Header. simpl. now rewrite Header_Set_Set.
  - intros ->. now destruct (Encoding unicode_ToUpper t1 (r, w)) as [o [r' w']].
Qed.

(** ** A successful dispatch, replayed *)

(** X11: when the first dispatch succeeds, [ResponseBytes] hands the
    body read from the response, with no error, to its handler; from then
    on, in any world, [Response], [ResponseBytes] and [ResponseString]
    hand the same body over again (as buffer, bytes and string) without
    the HTTP client being asked. *)
Theorem successful_dispatch_is_replayed (r : Qrequest) (w : World) (rs : http_Response) :
  err r = None -> isBodyClosed r = false ->
  client_Do (sent w) (request_of r) = inl rs ->
  let r1 := answered rs r in
  let handed payload := mkHandlerCall (Some (request_of r)) (Some rs) payload None in
  ResponseBytes client_Do (r, w)
  = (Ret tt, (r1, record_call (handed (of_bytes (res_Body rs)))
                    (record_sent (request_of r) w)))
  /\ forall w' : World,
       Response client_Do (r1, w')
       = (Ret tt, (r1, record_call (handed (of_Buffer (Some (res_Body rs)))) w'))
       /\ ResponseBytes client_Do (r1, w')
          = (Ret tt, (r1, record_call (handed (of_bytes (res_Body rs))) w'))
       /\ ResponseString client_Do (r1, w')
          = (Ret tt,
             (r1, record_call (handed (of_string (string_of_bytes (res_Body rs)))) w')).
Proof.
  intros He Hc Hd r1 handed. split.
  - unfold ResponseBytes, bind.
    rewrite (response_dispatch_success client_Do r w rs He Hc Hd). reflexivity.
  - intros w'. unfold Response, ResponseBytes, ResponseString, bind.
    rewrite (response_cached client_Do r1 w' He eq_refl). repeat split.
Qed.

(** ** Validation and the accessors *)

(** X12: when the first dispatch succeeds with a status code that
    [ValidateStatusCode] rejects, the builder holds the validation error
    and one request has been sent; afterwards [ResponseBytes] hands the
    body together with that error to its handler, and [ResponseJSON]
    hands over the error with a nil mapping, without decoding. *)
Theorem rejected_status_is_reported_with_body
  (r : Qrequest) (w : World) (rs : http_Response) (statusCodes : list Z) :
  err r = None -> isBodyClosed r = false ->
  client_Do (sent w) (request_of r) = inl rs ->
  verdict (StatusCode rs) statusCodes = false ->
  let e := invalid_status_code (StatusCode rs) in
  let r1 := with_err (Some e) (answered rs r) in
  let handed payload := mkHandlerCall (Some (request_of r)) (Some rs) payload (Some e) in
  ValidateStatusCode client_Do statusCodes (r, w)
  = (Ret tt, (r1, record_sent (request_of r) w))
  /\ forall w' : World,
       ResponseBytes client_Do (r1, w')
       = (Ret tt, (r1, record_call (handed (of_bytes (res_Body rs))) w'))
       /\ ResponseJSON json_Unmarshal client_Do (r1, w')
          = (Ret tt, (r1, record_call (handed (of_JSONMaps None)) w')).
Proof.
  intros He Hc Hd Hv e r1 handed. split.
  - unfold ValidateStatusCode, bind.
    rewrite (response_dispatch_success client_Do r w rs He Hc Hd).
    rewrite (validateStatusCode_verdict (answered rs r) _ rs statusCodes eq_refl).
    rewrite Hv. reflexivity.
  - intros w'. unfold ResponseBytes, ResponseJSON, bind.
    rewrite (response_sticky client_Do r1 w' e eq_refl). split; reflexivity.
Qed.

(** X13: a check that passes does not clear an error stored before: on
    a builder that holds an error and a response whose status code the
    arguments accept, [ValidateStatusCode] changes nothing. *)
Theorem accepted_status_keeps_earlier_error
  (r : Qrequest) (w : World) (rs : http_Response) (e : error) (statusCodes : list Z) :
  err r = Some e -> res r = Some rs ->
  verdict (StatusCode rs) statusCodes = true ->
  ValidateStatusCode client_Do statusCodes (r, w) = (Ret tt, (r, w)).
Proof.
  intros He Hres Hv. unfold ValidateStatusCode, bind.
  rewrite (response_sticky client_Do r w e He).
  rewrite (validateStatusCode_verdict r w rs statusCodes Hres), Hv. reflexivity.
Qed.

(** X14: after a [Parameters] that fails to marshal on a builder that
    holds no response, [ValidateStatusCode] panics on the nil response
    and nothing is sent: the sticky error keeps [response] from
    dispatching, and the status check reads the response all the same. *)
Theorem ValidateStatusCode_panics_after_marshal_error
  (r : Qrequest) (w : World) (t : GoValue) (e : error) (statusCodes : list Z) :
  encodesParametersInURL (Method r) = false ->
  json_Marshal t = inr e -> res r = None ->
  ValidateStatusCode client_Do statusCodes
    (snd (Parameters json_Marshal Values_Encode (go_other t) (r, w)))
  = (Panic nil_dereference, (with_err (Some e) r, w)).
Proof.
  intros Hm Hj Hres.
  rewrite (Parameters_marshal_failure json_Marshal Values_Encode r w t e Hm Hj).
  simpl. unfold ValidateStatusCode, bind.
  rewrite (response_sticky client_Do (with_err (Some e) r) w e eq_refl).
  unfold validateStatusCode, bind, self. simpl. rewrite Hres. reflexivity.
Qed.

Lemma to_int_not_nil (n : Z) :
  Z.to_int n <> Decimal.Pos Decimal.Nil /\ Z.to_int n <> Decimal.Neg Decimal.Nil.
Proof.
  destruct n as [|p|p]; simpl; split; try discriminate;
    intros [= H]; now apply (DecimalPos.Unsigned.to_uint_nonnil p).
Qed.

Lemma Itoa_inj (n m : Z) : Itoa n = Itoa m -> n = m.
Proof.
  unfold Itoa. intros H. apply DecimalZ.to_int_inj.
  apply (f_equal NilZero.int_of_string) in H.
  destruct (to_int_not_nil n), (to_int_not_nil m).
  rewrite !NilZero.isi in H by assumption. congruence.
Qed.

Lemma append_inj_l (p s1 s2 : string) : p +:+ s1 = p +:+ s2 -> s1 = s2.
Proof. induction p as [|c p IH]; simpl; [auto|]. intros [= H]. now apply IH. Qed.

(** X15: the validation error tells the status code: two status codes
    with the same error are the same code, the decimal text of [Itoa]
    being read back without loss. *)
Theorem invalid_status_code_names_the_code (n m : Z) :
  invalid_status_code n = invalid_status_code m -> n = m.
Proof.
  unfold invalid_status_code. intros [= H].
  apply Itoa_inj. exact (append_inj_l _ _ _ H).
Qed.

(** ** From configuration to the wire and back *)

(** X16: with an HTTP client that answers with the body it is sent, a
    builder whose method carries a body, that has not dispatched and has
    no error, given a string by [Parameters], hands that very string and
    no error to the handler of [ResponseString]. *)
Theorem echoed_string_round_trip (body : string) (r : Qrequest) (w : World) :
  (forall history q b, req_Body q = Some b ->
     exists rs, client_Do history q = inl rs /\ res_Body rs = b) ->
  encodesParametersInURL (Method r) = false ->
  err r = None -> isBodyClosed r = false ->
  exists c,
    calls (snd (run_all [call_Parameters (go_string body); call_ResponseString] (r, w)))
    = (calls w ++ [c])%list
    /\ call_payload c = of_string body /\ call_err c = None.
Proof.
  intros Hecho Hm He Hc. unfold after_all, after. simpl.
  unfold Parameters, pack, bind at 1, self, update, ret. simpl. rewrite Hm. simpl.
  set (r1 := with_Body _ _ r).
  destruct (Hecho (sent w) (request_of r1) (bytes_of_string body) eq_refl)
    as (rs & Hd & Hb).
  unfold ResponseString, bind.
  rewrite (response_dispatch_success client_Do r1 w rs He Hc Hd). simpl.
  eexists. split; [reflexivity|]. simpl. split; [|reflexivity].
  rewrite Hb. unfold string_of_bytes, bytes_of_string.
  now rewrite string_of_list_byte_of_string.
Qed.

(** X18: on a builder that has not dispatched and has no error, the
    query string given to [Query] is the raw query of the request that
    [Response] then sends, with the builder's method and the rest of its
    URI. *)
Theorem Query_reaches_the_request (q : string) (r : Qrequest) (w : World) :
  err r = None -> isBodyClosed r = false ->
  exists sent_request,
    sent (snd (run_all [call_Query (go_string q); call_Response] (r, w)))
    = (sent w ++ [sent_request])%list
    /\ req_URL sent_request = mkURL (Scheme (Uri r)) (Host (Uri r)) (Path (Uri r)) q
    /\ req_Method sent_request = Method_String (Method r).
Proof.
  intros He Hc. unfold after_all, after. simpl.
  set (r1 := with_Uri _ r). unfold Query, update. simpl.
  exists (request_of r1). unfold Response, bind.
  destruct (response_cases client_Do r1 w); simpl in *; try congruence;
    (split; [reflexivity|]); unfold request_of; destruct (Body r1); split; reflexivity.
Qed.

(** ** Handlers *)

(** X19: a call of [Response], [ResponseBytes], [ResponseString] or
    [ResponseJSON] that returns has called its handler exactly once, and
    one that panics has not called it; no other call, [ValidateStatusCode]
    included, calls a handler. *)
Theorem handler_called_once (c : Call) (s : State) :
  (takes_handler c = true ->
   match fst (run_call c s) with
   | Ret _ => exists h, calls (snd (run c s)) = (calls (snd s) ++ [h])%list
   | Panic _ => calls (snd (run c s)) = calls (snd s)
   end)
  /\ (takes_handler c = false -> calls (snd (run c s)) = calls (snd s)).
Proof.
  destruct s as [r w]. unfold after. split; intros Hc.
  - destruct c; try discriminate; simpl;
      unfold Response, ResponseBytes, ResponseString, ResponseJSON, bind;
      destruct (response_cases client_Do r w); simpl;
      unfold Buffer_Bytes, bind, self, invoke, ret, panic; simpl;
      repeat case_match; simpl in *; simplify_eq; simpl; eauto.
  - destruct c; try discriminate; simpl; trivial.
    + unfold Parameters, pack, bind, self, update, lift, ret. simpl.
      destruct (encodesParametersInURL (Method r)); trivial.
      destruct data as [x|x|x|[x|]|[x|]|[x|]|x]; simpl; trivial.
      destruct (json_Marshal x); reflexivity.
    + unfold Encoding. cbv zeta. destruct (decide _); reflexivity.
    + unfold ValidateStatusCode, bind.
      destruct (response_cases client_Do r w); simpl;
        unfold validateStatusCode, bind, self, update, ret, panic; simpl;
        repeat (case_match; simpl in *; simplify_eq; simpl); trivial.
Qed.

End Further.

(** * The further properties at concrete builders *)

Lemma lengths_agree_before_dispatch_witness :
  let cs := [@call_Encoding demo_value "json"; call_Parameters (go_string "a=1&b=2");
             call_Query (go_string "page=2")] in
  let s' := demo_after_all echoing cs fresh_POST in
  forallb (fun c => negb (is_accessor c)) cs = true
  /\ req (fst s') = None
  /\ length_matches_body (fst s')
  /\ content_length_ok (request_of (fst s'))
  /\ (sent (snd (snd (response echoing s'))) = sent (snd s')
      \/ sent (snd (snd (response echoing s')))
         = (sent (snd s') ++ [request_of (fst s')])%list).
Proof.
  intros cs s'. split; [reflexivity|].
  exact (lengths_agree_before_dispatch demo_Marshal demo_Unmarshal demo_Encode echoing
           (fun x => x) cs fresh_POST eq_refl eq_refl I).
Defined.

Lemma sticky_error_blocks_dispatch_witness :
  let s0 := demo_after refusing (call_Parameters (go_other demo_chan)) fresh_POST in
  let s := demo_after_all (serving 200 "ok")
             [call_Response; call_Encoding "json"; call_ResponseString] s0 in
  err (fst s0) = Some (foreign_error "json" "json: unsupported type: chan int")
  /\ err (fst s) <> None
  /\ sent (snd s) = sent (snd s0).
Proof.
  intros s0 s. split; [reflexivity|].
  exact (sticky_error_blocks_dispatch demo_Marshal demo_Unmarshal demo_Encode
           (serving 200 "ok") (fun x => x)
           [call_Response; call_Encoding "json"; call_ResponseString] s0
           (foreign_error "json" "json: unsupported type: chan int") eq_refl).
Defined.

Lemma accessors_leave_configuration_witness :
  let cs := [@call_ResponseBytes demo_value; call_ValidateStatusCode [200%Z]; call_Response] in
  let s := demo_after_all refusing cs fresh_POST in
  forallb is_accessor cs = true
  /\ Method (fst s) = Method (fst fresh_POST)
  /\ Url (fst s) = Url (fst fresh_POST)
  /\ Uri (fst s) = Uri (fst fresh_POST)
  /\ Length (fst s) = Length (fst fresh_POST).
Proof.
  intros cs s. split; [reflexivity|].
  exact (accessors_leave_configuration demo_Marshal demo_Unmarshal demo_Encode refusing
           (fun x => x) cs fresh_POST eq_refl).
Defined.

Lemma Query_last_call_wins_witness :
  RawQuery (Uri (fst (demo_after refusing (call_Query (bytes_Buffer None))
                        (demo_after refusing (call_Query (go_string "page=2")) fresh_GET))))
  = "".
Proof.
  apply (proj2 (Query_last_call_wins demo_Marshal demo_Unmarshal demo_Encode refusing
                  (fun x => x) (go_string "page=2") (go_string "page=3") fresh_GET)
           (bytes_Buffer None)); discriminate.
Defined.

Lemma Parameters_nil_pointer_panics_witness :
  encodesParametersInURL (Method (new_builder POST demo_URL)) = false
  /\ Parameters demo_Marshal demo_Encode (bytes_Buffer None) fresh_POST
     = (Panic nil_dereference, fresh_POST).
Proof.
  split; [reflexivity|].
  exact (proj1 (Parameters_nil_pointer_panics demo_Marshal demo_Encode
                  (new_builder POST demo_URL) quiet eq_refl)).
Defined.

Lemma Parameters_last_body_wins_witness :
  let both := fst (demo_after refusing (call_Parameters (go_string "second"))
                     (demo_after refusing (call_Parameters (go_string "first")) fresh_POST)) in
  let second := fst (demo_after refusing (call_Parameters (go_string "second")) fresh_POST) in
  Body second <> None
  /\ Body both = Body second /\ Length both = Length second.
Proof.
  intros both second.
  assert (H : Body second <> None) by discriminate.
  split; [exact H|].
  exact (proj1 (Parameters_last_body_wins demo_Marshal demo_Unmarshal demo_Encode refusing
                  (fun x => x) (go_string "first") (go_string "second")
                  (new_builder POST demo_URL) quiet eq_refl eq_refl) H).
Defined.

Lemma Do_is_not_memoised_witness :
  let s1 := snd (Do (serving 200 "ok") fresh_POST) in
  dispatches (snd (response (serving 200 "ok") s1)) = 2%nat.
Proof.
  exact (proj2 (proj2 (proj2 (@Do_is_not_memoised demo_value (serving 200 "ok")
                                (new_builder POST demo_URL) quiet))) eq_refl eq_refl).
Defined.

Lemma Encoding_reaches_the_request_witness :
  (isASCII "Json" = true /\ "Json" <> "")
  /\ Header_Get
       (req_Header (request_of (fst (demo_after refusing (call_Encoding "Json") fresh_POST))))
       "Content-Type"
     = "application/json".
Proof.
  assert (H : "Json" <> "") by discriminate.
  split; [now split|].
  exact (Encoding_reaches_the_request demo_Marshal demo_Unmarshal demo_Encode refusing
           (fun x => x) "Json" fresh_POST eq_refl H).
Defined.

Lemma Encoding_last_name_wins_witness :
  demo_after refusing (call_Encoding "text/xml")
    (demo_after refusing (call_Encoding "json") fresh_POST)
  = demo_after refusing (call_Encoding "text/xml") fresh_POST.
Proof.
  assert (H : "text/xml" <> "") by discriminate.
  exact (proj1 (Encoding_last_name_wins demo_Marshal demo_Unmarshal demo_Encode refusing
                  (fun x => x) "json" "text/xml" fresh_POST eq_refl eq_refl) H).
Defined.

Lemma successful_dispatch_is_replayed_witness :
  let r := new_builder POST demo_URL in
  let r1 := answered not_json r in
  ResponseBytes (serving 200 "not json") (r, quiet)
  = (Ret tt,
     (r1, record_call
            (mkHandlerCall (Some (request_of r)) (Some not_json)
               (of_bytes (res_Body not_json)) None)
            (record_sent (request_of r) quiet)))
  /\ ResponseString (serving 200 "not json") (r1, quiet)
     = (Ret tt,
        (r1, record_call
               (mkHandlerCall (Some (request_of r)) (Some not_json)
                  (of_string "not json") None)
               quiet)).
Proof.
  intros r r1.
  pose proof (@successful_dispatch_is_replayed demo_value (serving 200 "not json")
                r quiet not_json eq_refl eq_refl eq_refl) as [H1 H2].
  split; [exact H1|]. exact (proj2 (proj2 (H2 quiet))).
Defined.

Lemma rejected_status_is_reported_with_body_witness :
  let r := new_builder POST demo_URL in
  let e := invalid_status_code 404 in
  let r1 := with_err (Some e) (answered gone r) in
  verdict (StatusCode gone) [] = false
  /\ ValidateStatusCode (serving 404 "gone") [] (r, quiet)
     = (Ret tt, (r1, record_sent (request_of r) quiet))
  /\ ResponseBytes (serving 404 "gone") (r1, quiet)
     = (Ret tt,
        (r1, record_call
               (mkHandlerCall (Some (request_of r)) (Some gone)
                  (of_bytes (res_Body gone)) (Some e))
               quiet)).
Proof.
  intros r e r1.
  pose proof (rejected_status_is_reported_with_body demo_Unmarshal (serving 404 "gone")
                r quiet gone [] eq_refl eq_refl eq_refl eq_refl) as [H1 H2].
  split; [reflexivity|]. split; [exact H1|]. exact (proj1 (H2 quiet)).
Defined.

Lemma accepted_status_keeps_earlier_error_witness :
  let e := invalid_status_code 404 in
  let r1 := with_err (Some e) (answered gone (new_builder POST demo_URL)) in
  verdict (StatusCode gone) [404%Z] = true
  /\ ValidateStatusCode (serving 404 "gone") [404%Z] (r1, quiet) = (Ret tt, (r1, quiet)).
Proof.
  intros e r1. split; [reflexivity|].
  exact (@accepted_status_keeps_earlier_error demo_value (serving 404 "gone")
           r1 quiet gone e [404%Z] eq_refl eq_refl eq_refl).
Defined.

Lemma ValidateStatusCode_panics_after_marshal_error_witness :
  let r := new_builder POST demo_URL in
  let e := foreign_error "json" "json: unsupported type: chan int" in
  demo_Marshal demo_chan = inr e
  /\ ValidateStatusCode (serving 200 "ok") []
       (snd (Parameters demo_Marshal demo_Encode (go_other demo_chan) (r, quiet)))
     = (Panic nil_dereference, (with_err (Some e) r, quiet)).
Proof.
  intros r e. split; [reflexivity|].
  exact (ValidateStatusCode_panics_after_marshal_error demo_Marshal demo_Encode
           (serving 200 "ok") r quiet demo_chan e [] eq_refl eq_refl eq_refl).
Defined.

Lemma invalid_status_code_names_the_code_witness :
  invalid_status_code 404 = invalid_status_code (400 + 4) /\ (404 = 400 + 4)%Z.
Proof.
  assert (H : invalid_status_code 404 = invalid_status_code (400 + 4)) by reflexivity.
  split; [exact H|]. exact (invalid_status_code_names_the_code 404 (400 + 4) H).
Defined.

Lemma echoed_string_round_trip_witness :
  exists c,
    calls (snd (demo_after_all echoing
                  [call_Parameters (go_string "a=1&b=2"); call_ResponseString] fresh_POST))
    = (calls quiet ++ [c])%list
    /\ call_payload c = of_string "a=1&b=2" /\ call_err c = None.
Proof.
  refine (echoed_string_round_trip demo_Marshal demo_Unmarshal demo_Encode echoing
            (fun x => x) "a=1&b=2" (new_builder POST demo_URL) quiet _ eq_refl eq_refl eq_refl).
  intros history q b Hq. unfold echoing. rewrite Hq. eexists. split; reflexivity.
Defined.

Lemma Query_reaches_the_request_witness :
  exists sent_request,
    sent (snd (demo_after_all refusing
                 [call_Query (go_string "page=2"); call_Response] fresh_GET))
    = (sent quiet ++ [sent_request])%list
    /\ req_URL sent_request = mkURL "http" "example.org" "/items" "page=2"
    /\ req_Method sent_request = "GET".
Proof.
  exact (Query_reaches_the_request demo_Marshal demo_Unmarshal demo_Encode refusing
           (fun x => x) "page=2" (new_builder GET demo_URL) quiet eq_refl eq_refl).
Defined.

Lemma handler_called_once_witness :
  calls (snd (demo_after refusing call_ResponseBytes fresh_POST)) = calls (snd fresh_POST)
  /\ calls (snd (demo_after refusing (call_ValidateStatusCode []) fresh_POST))
     = calls (snd fresh_POST).
Proof.
  split.
  - exact (proj1 (handler_called_once demo_Marshal demo_Unmarshal demo_Encode refusing
                    (fun x => x) call_ResponseBytes fresh_POST) eq_refl).
  - exact (proj2 (handler_called_once demo_Marshal demo_Unmarshal demo_Encode refusing
                    (fun x => x) (call_ValidateStatusCode []) fresh_POST) eq_refl).
Defined.
